(** * HMDA pipeline assembly: a shallow embedding of [pipelines/hmda/pipeline.py]

    The Python module builds one SageMaker pipeline description out of SDK
    configuration objects.  The SDK objects are modelled as records holding
    the keyword arguments the source passes; symbolic pipeline values
    (parameters, step properties, joins) are a small term language; the two
    lookups that depend on the execution environment (default bucket,
    execution role) and the project-tag service are fields of a [Platform]
    record, so that every function of the source is an executable Rocq
    function of its arguments and of the platform. *)

From Stdlib Require Import String Ascii List ZArith QArith Bool Lia.
Import ListNotations.
#[local] Set Warnings "-register-all".
Local Open Scope list_scope.
Local Open Scope string_scope.

(** ** Symbolic values *)

(** [sagemaker.workflow.parameters]: a named parameter with a default. *)
Inductive Param : Type :=
| ParameterString (name : string) (default_value : string)
| ParameterInteger (name : string) (default_value : Z)
| ParameterBoolean (name : string) (default_value : bool).

Definition parameter_name (p : Param) : string :=
  match p with
  | ParameterString n _ | ParameterInteger n _ | ParameterBoolean n _ => n
  end.

(** What the source passes where the SDK accepts "a value or a pipeline
    variable": Python literals, declared parameters, properties of a step
    ([step.properties.A.B...], addressed by the step's name), execution
    variables, [Join] and attributes of a build-time configuration object
    (identified by the source variable that holds it). *)
Inductive Value : Type :=
| VStr (s : string)
| VInt (z : Z)
| VParam (p : Param)
| VProp (step : string) (path : list string)
| VExec (name : string)
| VJoin (on : string) (values : list Value)
| VAttr (obj : string) (attr : string).

(** Names of the steps a value refers to. *)
Fixpoint value_steps (v : Value) : list string :=
  match v with
  | VProp s _ => [s]
  | VJoin _ vs => flat_map value_steps vs
  | _ => []
  end.

(** Parameters a value refers to. *)
Fixpoint value_params (v : Value) : list Param :=
  match v with
  | VParam p => [p]
  | VJoin _ vs => flat_map value_params vs
  | _ => []
  end.

Definition PIPELINE_EXECUTION_ID : Value := VExec "PipelineExecutionId".

(** ** Sessions and the execution environment *)

Record Session : Type := mkSession {
  sess_region : string;
  sess_default_bucket : option string
}.

Record PipelineSession : Type := mkPipelineSession {
  psess_region : string;
  psess_default_bucket : option string
}.

Definition exn : Type := string.

Record Tag : Type := mkTag { tag_key : string; tag_value : string }.

Record SageMakerClient : Type := mkClient { client_region : string }.

(** Everything the module obtains from outside the process.  [None] and
    [inl] stand for a raised exception. *)
Record Platform : Type := mkPlatform {
  BASE_DIR : string;
  (** [Session.default_bucket()] *)
  session_default_bucket : Session -> option string;
  (** [sagemaker.session.get_execution_role(session)] *)
  get_execution_role : Session -> option string;
  (** [boto3.Session(region_name=region).client("sagemaker")] *)
  boto_sagemaker_client : string -> exn + SageMakerClient;
  (** [client.describe_project(ProjectName=...)]: the response, a dict *)
  describe_project : SageMakerClient -> option string -> exn + list (string * string);
  (** [client.list_tags(ResourceArn=...)]: the response, a dict whose
      ["Tags"] entry (when present) is a list of tags *)
  list_tags : SageMakerClient -> string -> exn + option (list Tag)
}.

Definition get_session (region : string) (default_bucket : option string) : Session :=
  mkSession region default_bucket.

Definition get_pipeline_session (region : string) (default_bucket : option string)
  : PipelineSession :=
  mkPipelineSession region default_bucket.

(** [os.path.join] on two components (POSIX). *)
Definition ends_with_slash (s : string) : bool :=
  match rev (list_ascii_of_string s) with
  | c :: _ => Ascii.eqb c "/"%char
  | [] => false
  end.

Definition starts_with_slash (s : string) : bool :=
  match s with
  | String c _ => Ascii.eqb c "/"%char
  | EmptyString => false
  end.

Definition os_path_join (a b : string) : string :=
  if starts_with_slash b then b
  else if (String.eqb a "" || ends_with_slash a)%bool then a ++ b
  else a ++ "/" ++ b.

(** ** SDK configuration objects, as the source constructs them *)

Record ProcessingOutput : Type := mkProcessingOutput {
  po_output_name : string;
  po_source : string
}.

Record ProcessingInput : Type := mkProcessingInput {
  pi_source : Value;
  pi_destination : string
}.

Record SKLearnProcessor : Type := mkSKLearnProcessor {
  skp_framework_version : string;
  skp_instance_type : Value;
  skp_instance_count : Value;
  skp_base_job_name : string;
  skp_sagemaker_session : PipelineSession;
  skp_role : string
}.

(** The arguments captured by [processor.run(...)] under a pipeline session. *)
Record ProcessingArgs : Type := mkProcessingArgs {
  pa_processor : SKLearnProcessor;
  pa_inputs : list ProcessingInput;
  pa_outputs : list ProcessingOutput;
  pa_code : string;
  pa_arguments : list Value
}.

Record PropertyFile : Type := mkPropertyFile {
  pf_name : string;
  pf_output_name : string;
  pf_path : string
}.

Record CheckJobConfig : Type := mkCheckJobConfig {
  cj_role : string;
  cj_instance_count : Z;
  cj_instance_type : string;
  cj_volume_size_in_gb : Z;
  cj_sagemaker_session : PipelineSession
}.

(** [DatasetFormat.csv(header=..., output_columns_position=...)] *)
Record DatasetFormat : Type := csv {
  df_header : bool;
  df_output_columns_position : option string
}.

Inductive QualityCheckConfig : Type :=
| DataQualityCheckConfig
    (baseline_dataset : Value) (dataset_format : DatasetFormat)
    (output_s3_uri : Value)
| ModelQualityCheckConfig
    (baseline_dataset : Value) (dataset_format : DatasetFormat)
    (output_s3_uri : Value) (problem_type : string)
    (inference_attribute : string) (ground_truth_attribute : string).

Record DataConfig : Type := mkDataConfig {
  dc_s3_data_input_path : Value;
  dc_s3_output_path : Value;
  dc_s3_analysis_config_output_path : string;
  dc_label : string;
  dc_headers : list string;
  dc_dataset_type : string
}.

Record BiasConfig : Type := mkBiasConfig {
  bc_label_values_or_threshold : list Z;
  bc_facet_name : list string
}.

Record ModelConfig : Type := mkModelConfig {
  mc_model_name : Value;
  mc_instance_count : Z;
  mc_instance_type : string
}.

(** [ModelPredictedLabelConfig()]: no argument given. *)
Inductive ModelPredictedLabelConfig : Type := mkModelPredictedLabelConfig.

Record SHAPConfig : Type := mkSHAPConfig {
  shap_seed : Z;
  shap_num_samples : Z;
  shap_num_clusters : Z
}.

(** The three Clarify check configurations.  [var] is the source variable
    holding the object: [VAttr var "monitoring_analysis_config_uri"] reads
    an attribute of that very object. *)
Inductive ClarifyCheckConfig : Type :=
| DataBiasCheckConfig (var : string)
    (data_config : DataConfig) (data_bias_config : BiasConfig)
| ModelBiasCheckConfig (var : string)
    (data_config : DataConfig) (data_bias_config : BiasConfig)
    (model_config : ModelConfig)
    (model_predicted_label_config : ModelPredictedLabelConfig)
| ModelExplainabilityCheckConfig (var : string)
    (data_config : DataConfig) (model_config : ModelConfig)
    (explainability_config : SHAPConfig).

Definition clarify_var (c : ClarifyCheckConfig) : string :=
  match c with
  | DataBiasCheckConfig v _ _ => v
  | ModelBiasCheckConfig v _ _ _ _ => v
  | ModelExplainabilityCheckConfig v _ _ _ => v
  end.

Definition clarify_data_config (c : ClarifyCheckConfig) : DataConfig :=
  match c with
  | DataBiasCheckConfig _ d _ => d
  | ModelBiasCheckConfig _ d _ _ _ => d
  | ModelExplainabilityCheckConfig _ d _ _ => d
  end.

Definition monitoring_analysis_config_uri (c : ClarifyCheckConfig) : Value :=
  VAttr (clarify_var c) "monitoring_analysis_config_uri".

(** [sagemaker.AutoML(...)], with every keyword the source gives. *)
Record AutoML : Type := mkAutoML {
  aml_role : string;
  aml_target_attribute_name : string;
  aml_output_kms_key : option string;
  aml_output_path : string;
  aml_base_job_name : string;
  aml_compression_type : option string;
  aml_sagemaker_session : PipelineSession;
  aml_volume_kms_key : option string;
  aml_encrypt_inter_container_traffic : option bool;
  aml_vpc_config : option string;
  aml_problem_type : string;
  aml_max_candidates : Z;
  aml_max_runtime_per_training_job_in_seconds : Z;
  aml_total_job_runtime_in_seconds : Z;
  aml_job_objective : list (string * string);
  aml_generate_candidate_definitions_only : bool;
  aml_tags : option (list Tag);
  aml_content_type : string;
  aml_s3_data_type : string;
  aml_feature_specification_s3_uri : option string;
  aml_validation_fraction : Q;
  aml_mode : string;
  aml_auto_generate_endpoint_name : string;
  aml_endpoint_name : string;
  aml_sample_weight_attribute_name : option string
}.

Record AutoMLInput : Type := mkAutoMLInput {
  ami_inputs : Value;
  ami_target_attribute_name : string;
  ami_compression : option string;
  ami_channel_type : string;
  ami_content_type : string;
  ami_s3_data_type : string;
  ami_sample_weight_attribute_name : option string
}.

(** The arguments captured by [auto_ml.fit(...)]. *)
Record AutoMLArgs : Type := mkAutoMLArgs {
  fit_auto_ml : AutoML;
  fit_inputs : list AutoMLInput;
  fit_wait : bool;
  fit_logs : bool;
  fit_job_name : string
}.

(** [step_automl.get_best_auto_ml_model(...)]: a model built from the
    properties of the named search step. *)
Record BestAutoMLModel : Type := mkBestAutoMLModel {
  bm_automl_step : string;
  bm_sagemaker_session : PipelineSession;
  bm_role : string
}.

Record MetricsSource : Type := mkMetricsSource {
  ms_s3_uri : Value;
  ms_content_type : string
}.

Record FileSource : Type := mkFileSource {
  fs_s3_uri : Value;
  fs_content_type : string
}.

Record ModelMetrics : Type := mkModelMetrics {
  mm_model_data_statistics : MetricsSource;
  mm_model_data_constraints : MetricsSource;
  mm_bias_pre_training : MetricsSource;
  mm_model_statistics : MetricsSource;
  mm_model_constraints : MetricsSource;
  mm_bias_post_training : MetricsSource;
  mm_bias : MetricsSource;
  mm_explainability : MetricsSource
}.

Record DriftCheckBaselines : Type := mkDriftCheckBaselines {
  dcb_model_data_statistics : MetricsSource;
  dcb_model_data_constraints : MetricsSource;
  dcb_bias_pre_training_constraints : MetricsSource;
  dcb_bias_config_file : FileSource;
  dcb_model_statistics : MetricsSource;
  dcb_model_constraints : MetricsSource;
  dcb_bias_post_training_constraints : MetricsSource;
  dcb_explainability_constraints : MetricsSource;
  dcb_explainability_config_file : FileSource
}.

(** The arguments captured by [model.create(...)] and [model.register(...)]. *)
Inductive ModelArgs : Type :=
| ModelCreate (model : BestAutoMLModel) (instance_type : string)
| ModelRegister (model : BestAutoMLModel)
    (content_types response_types : list string)
    (inference_instances transform_instances : list string)
    (model_package_group_name : string) (approval_status : Value)
    (model_metrics : ModelMetrics)
    (drift_check_baselines : DriftCheckBaselines).

Record Transformer : Type := mkTransformer {
  tr_model_name : Value;
  tr_instance_type : string;
  tr_instance_count : Z;
  tr_accept : string;
  tr_assemble_with : string;
  tr_output_path : string;
  tr_sagemaker_session : PipelineSession
}.

Record TransformInput : Type := mkTransformInput { ti_data : Value }.

(** The arguments captured by [transformer.transform(...)]. *)
Record TransformArgs : Type := mkTransformArgs {
  ta_transformer : Transformer;
  ta_data : Value;
  ta_input_filter : string;
  ta_join_source : string;
  ta_output_filter : string;
  ta_content_type : string;
  ta_split_type : string
}.

Record JsonGet : Type := mkJsonGet {
  jg_step_name : string;
  jg_property_file : PropertyFile;
  jg_json_path : string
}.

(** [ConditionGreaterThanOrEqualTo(left=JsonGet(...), right=<float>)]; the
    float literal is kept as the rational it denotes. *)
Inductive Condition : Type :=
| ConditionGreaterThanOrEqualTo (left : JsonGet) (right : Q).

(** ** Steps and pipelines *)

Inductive Step : Type :=
| ProcessingStep (name : string) (step_args : ProcessingArgs)
    (property_files : list PropertyFile)
| QualityCheckStep (name : string)
    (skip_check register_new_baseline : Value)
    (quality_check_config : QualityCheckConfig)
    (check_job_config : CheckJobConfig)
    (supplied_baseline_statistics supplied_baseline_constraints : Value)
    (model_package_group_name : string)
| ClarifyCheckStep (name : string)
    (clarify_check_config : ClarifyCheckConfig)
    (check_job_config : CheckJobConfig)
    (skip_check register_new_baseline : Value)
    (supplied_baseline_constraints : option Value)
    (model_package_group_name : string)
| AutoMLStep (name : string) (step_args : AutoMLArgs)
    (depends_on : list string)
| ModelStep (name : string) (step_args : ModelArgs)
| TransformStep (name : string) (step_args : TransformArgs)
| ConditionStep (name : string) (conditions : list Condition)
    (if_steps else_steps : list Step).

Definition step_name (s : Step) : string :=
  match s with
  | ProcessingStep n _ _ => n
  | QualityCheckStep n _ _ _ _ _ _ _ => n
  | ClarifyCheckStep n _ _ _ _ _ _ => n
  | AutoMLStep n _ _ => n
  | ModelStep n _ => n
  | TransformStep n _ => n
  | ConditionStep n _ _ _ => n
  end.

Record Pipeline : Type := mkPipeline {
  pl_name : string;
  pl_parameters : list Value;
  pl_steps : list Step;
  pl_sagemaker_session : PipelineSession
}.

(** ** [get_pipeline] *)

(** The keyword arguments of [get_pipeline].  The two instance-type
    arguments are used as values and are also put into the pipeline's
    parameter list, so they are [Value]s: a caller passes a string or a
    declared parameter. *)
Record Args : Type := mkArgs {
  region : string;
  role : option string;
  default_bucket : option string;
  model_package_group_name : string;
  pipeline_name : string;
  base_job_prefix : string;
  processing_instance_type : Value;
  training_instance_type : Value;
  sagemaker_project_name : option string
}.

(** A call [get_pipeline(region)]: every default of the signature. *)
Definition default_args (region : string) : Args :=
  mkArgs region None None "HMDAPackageGroup" "HMDAPipeline" "HMDA"
         (VStr "ml.t3.large") (VStr "ml.m5.xlarge") None.

(** [step.properties.ProcessingOutputConfig.Outputs[name].S3Output.S3Uri] *)
Definition processing_output_uri (step : Step) (output_name : string) : Value :=
  VProp (step_name step)
        ["ProcessingOutputConfig"; "Outputs"; output_name; "S3Output"; "S3Uri"].

(** [step.properties.<attr>] *)
Definition step_property (step : Step) (attr : string) : Value :=
  VProp (step_name step) [attr].

(** [step.properties.TransformOutput.S3OutputPath] *)
Definition transform_output_path (step : Step) : Value :=
  VProp (step_name step) ["TransformOutput"; "S3OutputPath"].

(** The pipeline parameters declared at the top of [get_pipeline]. *)
Definition processing_instance_count : Param :=
  ParameterInteger "ProcessingInstanceCount" 1.
Definition model_approval_status : Param :=
  ParameterString "ModelApprovalStatus" "PendingManualApproval".
Definition input_data (default_bucket : string) : Param :=
  ParameterString "InputDataUrl"
    ("s3://" ++ default_bucket ++ "/dataset/state_DC.csv").

Definition skip_check_data_quality : Param :=
  ParameterBoolean "SkipDataQualityCheck" false.
Definition register_new_baseline_data_quality : Param :=
  ParameterBoolean "RegisterNewDataQualityBaseline" false.
Definition supplied_baseline_statistics_data_quality : Param :=
  ParameterString "DataQualitySuppliedStatistics" "".
Definition supplied_baseline_constraints_data_quality : Param :=
  ParameterString "DataQualitySuppliedConstraints" "".

Definition skip_check_data_bias : Param :=
  ParameterBoolean "SkipDataBiasCheck" false.
Definition register_new_baseline_data_bias : Param :=
  ParameterBoolean "RegisterNewDataBiasBaseline" false.
Definition supplied_baseline_constraints_data_bias : Param :=
  ParameterString "DataBiasSuppliedBaselineConstraints" "".

Definition skip_check_model_quality : Param :=
  ParameterBoolean "SkipModelQualityCheck" false.
Definition register_new_baseline_model_quality : Param :=
  ParameterBoolean "RegisterNewModelQualityBaseline" false.
Definition supplied_baseline_statistics_model_quality : Param :=
  ParameterString "ModelQualitySuppliedStatistics" "".
Definition supplied_baseline_constraints_model_quality : Param :=
  ParameterString "ModelQualitySuppliedConstraints" "".

Definition skip_check_model_bias : Param :=
  ParameterBoolean "SkipModelBiasCheck" false.
Definition register_new_baseline_model_bias : Param :=
  ParameterBoolean "RegisterNewModelBiasBaseline" false.
Definition supplied_baseline_constraints_model_bias : Param :=
  ParameterString "ModelBiasSuppliedBaselineConstraints" "".

Definition skip_check_model_explainability : Param :=
  ParameterBoolean "SkipModelExplainabilityCheck" false.
Definition register_new_baseline_model_explainability : Param :=
  ParameterBoolean "RegisterNewModelExplainabilityBaseline" false.
Definition supplied_baseline_constraints_model_explainability : Param :=
  ParameterString "ModelExplainabilitySuppliedBaselineConstraints" "".

(** The body of [get_pipeline] once the bucket and the role are resolved:
    the first half, up to the search step and the model built from it. *)
Definition pipeline_session_of (a : Args) (default_bucket : string) : PipelineSession :=
  get_pipeline_session (region a) (Some default_bucket).

Definition step_process (pf : Platform) (a : Args) (default_bucket role : string) : Step :=
  let pipeline_session := pipeline_session_of a default_bucket in
  let sklearn_processor :=
    mkSKLearnProcessor "1.2-1" (processing_instance_type a)
      (VParam processing_instance_count)
      (base_job_prefix a ++ "/sklearn-hmda-preprocess")
      pipeline_session role in
  let step_args :=
    mkProcessingArgs sklearn_processor
      []
      [ mkProcessingOutput "train" "/opt/ml/processing/train";
        mkProcessingOutput "train_no_header" "/opt/ml/processing/train_no_header";
        mkProcessingOutput "test" "/opt/ml/processing/test" ]
      (os_path_join (BASE_DIR pf) "preprocess.py")
      [ VStr "--input-data"; VParam (input_data default_bucket) ] in
  ProcessingStep "PreprocessHMDAData" step_args [].

Definition check_job_config (a : Args) (default_bucket role : string) : CheckJobConfig :=
  mkCheckJobConfig role 1 "ml.t3.large" 30 (pipeline_session_of a default_bucket).

Definition data_quality_check_step (pf : Platform) (a : Args)
    (default_bucket role : string) : Step :=
  let step_process := step_process pf a default_bucket role in
  let data_quality_check_config :=
    DataQualityCheckConfig
      (processing_output_uri step_process "train_no_header")
      (csv false (Some "START"))
      (VJoin "/" [ VStr "s3:/"; VStr default_bucket; VStr (base_job_prefix a);
                   PIPELINE_EXECUTION_ID; VStr "dataqualitycheckstep" ]) in
  QualityCheckStep "DataQualityCheckStep"
    (VParam skip_check_data_quality)
    (VParam register_new_baseline_data_quality)
    data_quality_check_config
    (check_job_config a default_bucket role)
    (VParam supplied_baseline_statistics_data_quality)
    (VParam supplied_baseline_constraints_data_quality)
    (model_package_group_name a).

Definition data_bias_check_config (pf : Platform) (a : Args)
    (default_bucket role : string) : ClarifyCheckConfig :=
  let step_process := step_process pf a default_bucket role in
  let data_bias_analysis_cfg_output_path :=
    "s3://" ++ default_bucket ++ "/" ++ base_job_prefix a
      ++ "/databiascheckstep/analysis_cfg" in
  let data_bias_data_config :=
    mkDataConfig
      (processing_output_uri step_process "train_no_header")
      (VJoin "/" [ VStr "s3:/"; VStr default_bucket; VStr (base_job_prefix a);
                   PIPELINE_EXECUTION_ID; VStr "databiascheckstep" ])
      data_bias_analysis_cfg_output_path
      "action_taken"
      [ "action_taken"; "conforming_loan_limit"; "derived_sex"; "preapproval";
        "loan_type"; "loan_purpose"; "lien_status"; "reverse_mortgage";
        "open-end_line_of_credit"; "business_or_commercial_purpose";
        "loan_amount"; "loan_to_value_ratio"; "loan_term";
        "negative_amortization"; "interest_only_payment"; "balloon_payment";
        "other_nonamortizing_features"; "property_value";
        "construction_method"; "occupancy_type"; "total_units"; "income";
        "debt_to_income_ratio"; "derived_age_above_62"; "derived_age_below_25";
        "derived_race_revisited"; "if_co-applicant" ]
      "text/csv" in
  let data_bias_config :=
    mkBiasConfig [1%Z]
      [ "derived_sex"; "derived_age_above_62"; "derived_age_below_25";
        "derived_race_revisited"; "if_co-applicant" ] in
  DataBiasCheckConfig "data_bias_check_config"
    data_bias_data_config data_bias_config.

Definition data_bias_check_step (pf : Platform) (a : Args)
    (default_bucket role : string) : Step :=
  ClarifyCheckStep "DataBiasCheckStep"
    (data_bias_check_config pf a default_bucket role)
    (check_job_config a default_bucket role)
    (VParam skip_check_data_bias)
    (VParam register_new_baseline_data_bias)
    None
    (model_package_group_name a).

Definition step_automl (pf : Platform) (a : Args)
    (default_bucket role : string) : Step :=
  let step_process := step_process pf a default_bucket role in
  let pipeline_session := pipeline_session_of a default_bucket in
  let auto_ml :=
    mkAutoML role "action_taken" None
      ("s3://" ++ default_bucket ++ "/" ++ base_job_prefix a ++ "/automlstep")
      (base_job_prefix a ++ "/automl")
      None pipeline_session None None None
      "BinaryClassification"
      1 180 540
      [ ("MetricName", "F1") ]
      false None
      "text/csv;header=present" "S3Prefix" None
      0.2%Q
      "ENSEMBLING" "False" "hmda_endpoint" None in
  let input_training :=
    mkAutoMLInput
      (processing_output_uri step_process "train")
      "action_taken" None "training" "text/csv;header=present" "S3Prefix"
      None in
  let step_args :=
    mkAutoMLArgs auto_ml [ input_training ] true true
      (base_job_prefix a ++ "/automl-fit") in
  AutoMLStep "AutoMLStep" step_args
    [ "DataQualityCheckStep"; "DataBiasCheckStep" ].

Definition best_auto_ml_model (pf : Platform) (a : Args)
    (default_bucket role : string) : BestAutoMLModel :=
  mkBestAutoMLModel (step_name (step_automl pf a default_bucket role))
    (pipeline_session_of a default_bucket) role.

Definition step_create_model (pf : Platform) (a : Args)
    (default_bucket role : string) : Step :=
  let step_args :=
    ModelCreate (best_auto_ml_model pf a default_bucket role) "ml.m5.xlarge" in
  ModelStep "HMDACreateModel" step_args.

(** The second half: scoring, the model checks, evaluation. *)
Definition transformer (pf : Platform) (a : Args)
    (default_bucket role : string) : Transformer :=
  mkTransformer
    (step_property (step_create_model pf a default_bucket role) "ModelName")
    "ml.m5.xlarge" 1 "text/csv" "Line"
    ("s3://" ++ default_bucket ++ "/HMDATransform")
    (pipeline_session_of a default_bucket).

Definition transform_inputs (pf : Platform) (a : Args)
    (default_bucket role : string) : TransformInput :=
  mkTransformInput
    (processing_output_uri (step_process pf a default_bucket role) "test").

Definition step_transform (pf : Platform) (a : Args)
    (default_bucket role : string) : Step :=
  let step_args :=
    mkTransformArgs (transformer pf a default_bucket role)
      (ti_data (transform_inputs pf a default_bucket role))
      "$[1:]" "Input" "$[0,-1]" "text/csv" "Line" in
  TransformStep "HMDATransform" step_args.

Definition model_quality_check_step (pf : Platform) (a : Args)
    (default_bucket role : string) : Step :=
  let step_transform := step_transform pf a default_bucket role in
  let model_quality_check_config :=
    ModelQualityCheckConfig
      (transform_output_path step_transform)
      (csv false None)
      (VJoin "/" [ VStr "s3:/"; VStr default_bucket; VStr (base_job_prefix a);
                   PIPELINE_EXECUTION_ID; VStr "modelqualitycheckstep" ])
      "BinaryClassification" "_c1" "_c0" in
  QualityCheckStep "ModelQualityCheckStep"
    (VParam skip_check_model_quality)
    (VParam register_new_baseline_model_quality)
    model_quality_check_config
    (check_job_config a default_bucket role)
    (VParam supplied_baseline_statistics_model_quality)
    (VParam supplied_baseline_constraints_model_quality)
    (model_package_group_name a).

Definition model_config (pf : Platform) (a : Args)
    (default_bucket role : string) : ModelConfig :=
  mkModelConfig
    (step_property (step_create_model pf a default_bucket role) "ModelName")
    1 "ml.m5.large".

Definition model_bias_check_config (pf : Platform) (a : Args)
    (default_bucket role : string) : ClarifyCheckConfig :=
  let step_process := step_process pf a default_bucket role in
  let model_bias_analysis_cfg_output_path :=
    "s3://" ++ default_bucket ++ "/" ++ base_job_prefix a
      ++ "/modelbiascheckstep/analysis_cfg" in
  let model_bias_data_config :=
    mkDataConfig
      (processing_output_uri step_process "train_no_header")
      (VJoin "/" [ VStr "s3:/"; VStr default_bucket; VStr (base_job_prefix a);
                   PIPELINE_EXECUTION_ID; VStr "modelbiascheckstep" ])
      model_bias_analysis_cfg_output_path
      "action_taken"
      [ "action_taken"; "conforming_loan_limit"; "derived_sex"; "preapproval";
        "loan_type"; "loan_purpose"; "lien_status"; "reverse_mortgage";
        "open-end_line_of_credit"; "business_or_commercial_purpose";
        "loan_amount"; "loan_to_value_ratio"; "loan_term";
        "negative_amortization"; "interest_only_payment"; "balloon_payment";
        "other_nonamortizing_features"; "property_value";
        "construction_method"; "occupancy_type"; "total_units"; "income";
        "debt_to_income_ratio"; "derived_age_above_62"; "derived_age_below_25";
        "derived_race_revisited"; "if_co-applicant" ]
      "text/csv" in
  let model_bias_config :=
    mkBiasConfig [1%Z]
      [ "derived_sex"; "derived_age_above_62"; "derived_age_below_25";
        "derived_race_revisited"; "if_co-applicant" ] in
  ModelBiasCheckConfig "model_bias_check_config"
    model_bias_data_config model_bias_config
    (model_config pf a default_bucket role)
    mkModelPredictedLabelConfig.

Definition model_bias_check_step (pf : Platform) (a : Args)
    (default_bucket role : string) : Step :=
  ClarifyCheckStep "ModelBiasCheckStep"
    (model_bias_check_config pf a default_bucket role)
    (check_job_config a default_bucket role)
    (VParam skip_check_model_bias)
    (VParam register_new_baseline_model_bias)
    (Some (VParam supplied_baseline_constraints_model_bias))
    (model_package_group_name a).

Definition model_explainability_check_config (pf : Platform) (a : Args)
    (default_bucket role : string) : ClarifyCheckConfig :=
  let step_process := step_process pf a default_bucket role in
  let model_explainability_analysis_cfg_output_path :=
    "s3://" ++ default_bucket ++ "/" ++ base_job_prefix a ++ "/"
      ++ "modelexplainabilitycheckstep" ++ "/" ++ "analysis_cfg" in
  let model_explainability_data_config :=
    mkDataConfig
      (processing_output_uri step_process "train_no_header")
      (VJoin "/" [ VStr "s3:/"; VStr default_bucket; VStr (base_job_prefix a);
                   PIPELINE_EXECUTION_ID;
                   VStr "modelexplainabilitycheckstep" ])
      model_explainability_analysis_cfg_output_path
      "action_taken"
      [ "action_taken"; "conforming_loan_limit"; "derived_sex"; "preapproval";
        "loan_type"; "loan_purpose"; "lien_status"; "reverse_mortgage";
        "open-end_line_of_credit"; "business_or_commercial_purpose";
        "loan_amount"; "loan_to_value_ratio"; "loan_term";
        "negative_amortization"; "interest_only_payment"; "balloon_payment";
        "other_nonamortizing_features"; "property_value";
        "construction_method"; "occupancy_type"; "total_units"; "income";
        "debt_to_income_ratio"; "derived_age_above_62"; "derived_age_below_25";
        "derived_race_revisited"; "if_co-applicant" ]
      "text/csv" in
  let shap_config := mkSHAPConfig 123 26 1 in
  ModelExplainabilityCheckConfig "model_explainability_check_config"
    model_explainability_data_config
    (model_config pf a default_bucket role)
    shap_config.

Definition model_explainability_check_step (pf : Platform) (a : Args)
    (default_bucket role : string) : Step :=
  ClarifyCheckStep "ModelExplainabilityCheckStep"
    (model_explainability_check_config pf a default_bucket role)
    (check_job_config a default_bucket role)
    (VParam skip_check_model_explainability)
    (VParam register_new_baseline_model_explainability)
    (Some (VParam supplied_baseline_constraints_model_explainability))
    (model_package_group_name a).

Definition evaluation_report : PropertyFile :=
  mkPropertyFile "HMDAEvaluationReport" "evaluation" "evaluation.json".

Definition step_eval (pf : Platform) (a : Args)
    (default_bucket role : string) : Step :=
  let pipeline_session := pipeline_session_of a default_bucket in
  let sklearn_processor :=
    mkSKLearnProcessor "1.2-1" (processing_instance_type a)
      (VParam processing_instance_count)
      (base_job_prefix a ++ "/sklearn-hmda-evaluate")
      pipeline_session role in
  let step_args :=
    mkProcessingArgs sklearn_processor
      [ mkProcessingInput
          (transform_output_path (step_transform pf a default_bucket role))
          "/opt/ml/processing/input/ground_truth_with_predictions" ]
      [ mkProcessingOutput "evaluation" "/opt/ml/processing/evaluation" ]
      (os_path_join (BASE_DIR pf) "evaluate.py")
      [] in
  ProcessingStep "EvaluateHMDAModel" step_args [ evaluation_report ].

(** The two metrics bundles, registration, the condition and the pipeline. *)
Definition model_metrics (pf : Platform) (a : Args)
    (default_bucket role : string) : ModelMetrics :=
  let data_quality_check_step := data_quality_check_step pf a default_bucket role in
  let data_bias_check_step := data_bias_check_step pf a default_bucket role in
  let model_quality_check_step := model_quality_check_step pf a default_bucket role in
  let model_bias_check_step := model_bias_check_step pf a default_bucket role in
  let model_explainability_check_step :=
    model_explainability_check_step pf a default_bucket role in
  mkModelMetrics
    (mkMetricsSource
       (step_property data_quality_check_step "CalculatedBaselineStatistics")
       "application/json")
    (mkMetricsSource
       (step_property data_quality_check_step "CalculatedBaselineConstraints")
       "application/json")
    (mkMetricsSource
       (step_property data_bias_check_step "CalculatedBaselineConstraints")
       "application/json")
    (mkMetricsSource
       (step_property model_quality_check_step "CalculatedBaselineStatistics")
       "application/json")
    (mkMetricsSource
       (step_property model_quality_check_step "CalculatedBaselineConstraints")
       "application/json")
    (mkMetricsSource
       (step_property model_bias_check_step "CalculatedBaselineConstraints")
       "application/json")
    (mkMetricsSource
       (step_property model_bias_check_step "CalculatedBaselineConstraints")
       "application/json")
    (mkMetricsSource
       (step_property model_explainability_check_step
          "CalculatedBaselineConstraints")
       "application/json").

Definition drift_check_baselines (pf : Platform) (a : Args)
    (default_bucket role : string) : DriftCheckBaselines :=
  let data_quality_check_step := data_quality_check_step pf a default_bucket role in
  let data_bias_check_step := data_bias_check_step pf a default_bucket role in
  let model_quality_check_step := model_quality_check_step pf a default_bucket role in
  let model_bias_check_step := model_bias_check_step pf a default_bucket role in
  let model_explainability_check_step :=
    model_explainability_check_step pf a default_bucket role in
  mkDriftCheckBaselines
    (mkMetricsSource
       (step_property data_quality_check_step
          "BaselineUsedForDriftCheckStatistics")
       "application/json")
    (mkMetricsSource
       (step_property data_quality_check_step
          "BaselineUsedForDriftCheckConstraints")
       "application/json")
    (mkMetricsSource
       (step_property data_bias_check_step
          "BaselineUsedForDriftCheckConstraints")
       "application/json")
    (mkFileSource
       (monitoring_analysis_config_uri
          (model_bias_check_config pf a default_bucket role))
       "application/json")
    (mkMetricsSource
       (step_property model_quality_check_step
          "BaselineUsedForDriftCheckStatistics")
       "application/json")
    (mkMetricsSource
       (step_property model_quality_check_step
          "BaselineUsedForDriftCheckConstraints")
       "application/json")
    (mkMetricsSource
       (step_property model_bias_check_step
          "BaselineUsedForDriftCheckConstraints")
       "application/json")
    (mkMetricsSource
       (step_property model_explainability_check_step
          "BaselineUsedForDriftCheckConstraints")
       "application/json")
    (mkFileSource
       (monitoring_analysis_config_uri
          (model_explainability_check_config pf a default_bucket role))
       "application/json").

Definition step_register (pf : Platform) (a : Args)
    (default_bucket role : string) : Step :=
  let step_args :=
    ModelRegister (best_auto_ml_model pf a default_bucket role)
      [ "text/csv" ] [ "text/csv" ]
      [ "ml.m5.xlarge" ] [ "ml.m5.xlarge" ]
      (model_package_group_name a)
      (VParam model_approval_status)
      (model_metrics pf a default_bucket role)
      (drift_check_baselines pf a default_bucket role) in
  ModelStep "RegisterHMDAModel" step_args.

Definition cond_lte (pf : Platform) (a : Args)
    (default_bucket role : string) : Condition :=
  ConditionGreaterThanOrEqualTo
    (mkJsonGet (step_name (step_eval pf a default_bucket role))
       evaluation_report
       "classification_metrics.weighted_f1.value")
    0.5%Q.

Definition step_cond (pf : Platform) (a : Args)
    (default_bucket role : string) : Step :=
  ConditionStep "CheckF1HMDAEvaluation"
    [ cond_lte pf a default_bucket role ]
    [ step_register pf a default_bucket role ]
    [].

(** Lines 198-848 of the source: everything after the bucket and the role
    are resolved. *)
Definition get_pipeline_body (pf : Platform) (a : Args)
    (default_bucket role : string) : Pipeline :=
  mkPipeline (pipeline_name a)
    [ processing_instance_type a;
      VParam processing_instance_count;
      training_instance_type a;
      VParam model_approval_status;
      VParam (input_data default_bucket);

      VParam skip_check_data_quality;
      VParam register_new_baseline_data_quality;
      VParam supplied_baseline_statistics_data_quality;
      VParam supplied_baseline_constraints_data_quality;

      VParam skip_check_data_bias;
      VParam register_new_baseline_data_bias;
      VParam supplied_baseline_constraints_data_bias;

      VParam skip_check_model_quality;
      VParam register_new_baseline_model_quality;
      VParam supplied_baseline_statistics_model_quality;
      VParam supplied_baseline_constraints_model_quality;

      VParam skip_check_model_bias;
      VParam register_new_baseline_model_bias;
      VParam supplied_baseline_constraints_model_bias;

      VParam skip_check_model_explainability;
      VParam register_new_baseline_model_explainability;
      VParam supplied_baseline_constraints_model_explainability ]
    [ step_process pf a default_bucket role;
      data_quality_check_step pf a default_bucket role;
      data_bias_check_step pf a default_bucket role;
      step_automl pf a default_bucket role;
      step_create_model pf a default_bucket role;
      step_transform pf a default_bucket role;
      model_quality_check_step pf a default_bucket role;
      model_bias_check_step pf a default_bucket role;
      model_explainability_check_step pf a default_bucket role;
      step_eval pf a default_bucket role;
      step_cond pf a default_bucket role ]
    (pipeline_session_of a default_bucket).

(** [get_pipeline]: the session is built from the [default_bucket]
    argument as given, the bucket is then read back from the session, the
    role is looked up only when it is [None]; an exception of either lookup
    leaves no pipeline.  The exceptions the SDK constructors can raise while
    the steps are built (client creation, validation of the arguments) are
    not modelled: the properties below speak of the pipelines that are
    returned. *)
Definition get_pipeline (pf : Platform) (a : Args) : option Pipeline :=
  let sagemaker_session := get_session (region a) (default_bucket a) in
  match session_default_bucket pf sagemaker_session with
  | None => None
  | Some default_bucket =>
      let role :=
        match role a with
        | None => get_execution_role pf sagemaker_session
        | Some r => Some r
        end in
      match role with
      | None => None
      | Some role => Some (get_pipeline_body pf a default_bucket role)
      end
  end.

(** ** [get_pipeline_custom_tags] *)

(** The function appends to the list object it is given and prints on
    standard output; both are the state of a small state-and-exception
    monad.  A raised exception leaves the state as it is at that point. *)
Record World : Type := mkWorld {
  new_tags_obj : list Tag;
  stdout : list string
}.

Definition M (A : Type) : Type := World -> (exn + A) * World.

Definition ret {A} (x : A) : M A := fun w => (inr x, w).

Definition bind {A B} (m : M A) (k : A -> M B) : M B :=
  fun w =>
    match m w with
    | (inr x, w') => k x w'
    | (inl e, w') => (inl e, w')
    end.

Notation "x <- m ;; k" := (bind m (fun x => k))
  (at level 61, m at next level, right associativity).
Notation "m ;;; k" := (bind m (fun _ => k))
  (at level 61, right associativity).

(** A call that returns or raises. *)
Definition call {A} (r : exn + A) : M A := fun w => (r, w).

(** [try: body except Exception as e: handler e] *)
Definition try_except {A} (body : M A) (handler : exn -> M A) : M A :=
  fun w =>
    match body w with
    | (inr x, w') => (inr x, w')
    | (inl e, w') => handler e w'
    end.

(** [new_tags.append(t)] *)
Definition append (t : Tag) : M unit :=
  fun w => (inr tt, mkWorld (new_tags_obj w ++ [t])%list (stdout w)).

Definition print (s : string) : M unit :=
  fun w => (inr tt, mkWorld (new_tags_obj w) (stdout w ++ [s])%list).

(** [for x in xs: body x] *)
Fixpoint for_each {A} (xs : list A) (body : A -> M unit) : M unit :=
  match xs with
  | [] => ret tt
  | x :: rest => body x ;;; for_each rest body
  end.

(** [response[key]] on a dict; a missing key raises [KeyError]. *)
Fixpoint getitem {A} (d : list (string * A)) (key : string) : exn + A :=
  match d with
  | [] => inl ("KeyError: " ++ key)
  | (k, v) :: rest => if String.eqb k key then inr v else getitem rest key
  end.

Definition get_sagemaker_client (pf : Platform) (region : string)
  : exn + SageMakerClient :=
  boto_sagemaker_client pf region.

Definition get_pipeline_custom_tags (pf : Platform) (region : string)
    (sagemaker_project_name : option string) : M (list Tag) :=
  try_except
    (sm_client <- call (get_sagemaker_client pf region) ;;
     response <- call (describe_project pf sm_client sagemaker_project_name) ;;
     sagemaker_project_arn <- call (getitem response "ProjectArn") ;;
     response <- call (list_tags pf sm_client sagemaker_project_arn) ;;
     project_tags <-
       call (match response with
             | Some tags => inr tags
             | None => inl "KeyError: Tags"
             end) ;;
     for_each project_tags (fun project_tag => append project_tag))
    (fun e => print ("Error getting project tags: " ++ e))
  ;;; (fun w => (inr (new_tags_obj w), w)).

(** Calling the function on a list [new_tags]: the list is the object the
    body appends to. *)
Definition run_custom_tags (pf : Platform) (new_tags : list Tag)
    (region : string) (sagemaker_project_name : option string)
  : (exn + list Tag) * World :=
  get_pipeline_custom_tags pf region sagemaker_project_name
    (mkWorld new_tags []).

(** The service calls of the [try] block on their own: the project's tags,
    or the first exception. *)
Definition fetch_project_tags (pf : Platform) (region : string)
    (sagemaker_project_name : option string) : exn + list Tag :=
  match get_sagemaker_client pf region with
  | inl e => inl e
  | inr sm_client =>
    match describe_project pf sm_client sagemaker_project_name with
    | inl e => inl e
    | inr response =>
      match getitem response "ProjectArn" with
      | inl e => inl e
      | inr arn =>
        match list_tags pf sm_client arn with
        | inl e => inl e
        | inr None => inl "KeyError: Tags"
        | inr (Some tags) => inr tags
        end
      end
    end
  end.

(** ** What a step refers to *)

Definition quality_config_values (c : QualityCheckConfig) : list Value :=
  match c with
  | DataQualityCheckConfig d _ o => [d; o]
  | ModelQualityCheckConfig d _ o _ _ _ => [d; o]
  end.

Definition data_config_values (d : DataConfig) : list Value :=
  [dc_s3_data_input_path d; dc_s3_output_path d].

Definition clarify_config_values (c : ClarifyCheckConfig) : list Value :=
  match c with
  | DataBiasCheckConfig _ d _ => data_config_values d
  | ModelBiasCheckConfig _ d _ m _ => data_config_values d ++ [mc_model_name m]
  | ModelExplainabilityCheckConfig _ d m _ =>
      data_config_values d ++ [mc_model_name m]
  end%list.

Definition option_values (o : option Value) : list Value :=
  match o with Some v => [v] | None => [] end.

Definition model_metrics_sources (m : ModelMetrics) : list MetricsSource :=
  [ mm_model_data_statistics m; mm_model_data_constraints m;
    mm_bias_pre_training m; mm_model_statistics m; mm_model_constraints m;
    mm_bias_post_training m; mm_bias m; mm_explainability m ].

Definition drift_metrics_sources (d : DriftCheckBaselines) : list MetricsSource :=
  [ dcb_model_data_statistics d; dcb_model_data_constraints d;
    dcb_bias_pre_training_constraints d; dcb_model_statistics d;
    dcb_model_constraints d; dcb_bias_post_training_constraints d;
    dcb_explainability_constraints d ].

Definition drift_file_sources (d : DriftCheckBaselines) : list FileSource :=
  [ dcb_bias_config_file d; dcb_explainability_config_file d ].

(** Every value-typed field of a step (of a condition step: none, its
    operands are [JsonGet]s). *)
Definition step_values (s : Step) : list Value :=
  match s with
  | ProcessingStep _ args _ =>
      skp_instance_type (pa_processor args)
      :: skp_instance_count (pa_processor args)
      :: map pi_source (pa_inputs args) ++ pa_arguments args
  | QualityCheckStep _ skip reg cfg _ stats constr _ =>
      skip :: reg :: quality_config_values cfg ++ [stats; constr]
  | ClarifyCheckStep _ cfg _ skip reg constr _ =>
      clarify_config_values cfg ++ skip :: reg :: option_values constr
  | AutoMLStep _ args _ => map ami_inputs (fit_inputs args)
  | ModelStep _ (ModelCreate _ _) => []
  | ModelStep _ (ModelRegister _ _ _ _ _ _ status mm dcb) =>
      status :: map ms_s3_uri (model_metrics_sources mm)
        ++ map ms_s3_uri (drift_metrics_sources dcb)
        ++ map fs_s3_uri (drift_file_sources dcb)
  | TransformStep _ args => [tr_model_name (ta_transformer args); ta_data args]
  | ConditionStep _ _ _ _ => []
  end%list.

Definition model_args_model (m : ModelArgs) : BestAutoMLModel :=
  match m with
  | ModelCreate b _ => b
  | ModelRegister b _ _ _ _ _ _ _ _ => b
  end.

Definition condition_step_name (c : Condition) : string :=
  match c with ConditionGreaterThanOrEqualTo l _ => jg_step_name l end.

(** The steps a step depends on through the data it reads: the
    dependencies the orchestration infers. *)
Definition inferred_dependencies (s : Step) : list string :=
  (flat_map value_steps (step_values s)
   ++ match s with
      | ModelStep _ m => [bm_automl_step (model_args_model m)]
      | ConditionStep _ conds _ _ => map condition_step_name conds
      | _ => []
      end)%list.

(** The dependencies a step lists itself ([depends_on=...]). *)
Definition explicit_dependencies (s : Step) : list string :=
  match s with
  | AutoMLStep _ _ deps => deps
  | _ => []
  end.



Definition find_step (name : string) (steps : list Step) : option Step :=
  find (fun s => String.eqb (step_name s) name) steps.

(** ** How the orchestration service reads what the source declares

    The source only declares the condition and the two filter expressions;
    what they mean is the service's documented behaviour.  The two
    interpreters below give that meaning, so that the claims about "when
    registration runs" and "which columns are kept" can be stated. *)

(** Split a string at every occurrence of a character. *)
Fixpoint split_on (c : ascii) (s : string) : list string :=
  match s with
  | EmptyString => [EmptyString]
  | String x rest =>
      if Ascii.eqb x c then EmptyString :: split_on c rest
      else match split_on c rest with
           | h :: t => String x h :: t
           | [] => [String x EmptyString]
           end
  end.









(** The column filters of a batch transform: the JSONPath subset the source
    uses, [$], [$[lo:hi]] and [$[i,j,...]], applied to one record seen as
    its list of columns. *)
Inductive Filter : Type :=
| FAll
| FSlice (lo hi : option Z)
| FIndices (indices : list Z).

Definition digit_of (c : ascii) : option Z :=
  let n := nat_of_ascii c in
  if ((48 <=? n) && (n <=? 57))%nat%bool then Some (Z.of_nat n - 48)%Z else None.

Fixpoint parse_digits (s : string) (acc : Z) : option Z :=
  match s with
  | EmptyString => Some acc
  | String c rest =>
      match digit_of c with
      | Some d => parse_digits rest (10 * acc + d)%Z
      | None => None
      end
  end.

Definition parse_int (s : string) : option Z :=
  match s with
  | EmptyString => None
  | String "-" EmptyString => None
  | String "-" rest => option_map Z.opp (parse_digits rest 0)
  | _ => parse_digits s 0
  end.

Definition parse_bound (s : string) : option (option Z) :=
  match s with
  | EmptyString => Some None
  | _ => option_map Some (parse_int s)
  end.

Fixpoint parse_ints (ss : list string) : option (list Z) :=
  match ss with
  | [] => Some []
  | s :: rest =>
      match parse_int s, parse_ints rest with
      | Some i, Some js => Some (i :: js)
      | _, _ => None
      end
  end.

(** The text between [$[] and the closing bracket. *)
Definition bracket_body (s : string) : option string :=
  match s with
  | String "$" (String "[" rest) =>
      match rev (list_ascii_of_string rest) with
      | "]"%char :: body => Some (string_of_list_ascii (rev body))
      | _ => None
      end
  | _ => None
  end.

Definition parse_filter (s : string) : option Filter :=
  if String.eqb s "$" then Some FAll
  else
    match bracket_body s with
    | None => None
    | Some body =>
        match split_on ":"%char body with
        | [lo; hi] =>
            match parse_bound lo, parse_bound hi with
            | Some l, Some h => Some (FSlice l h)
            | _, _ => None
            end
        | [_] => option_map FIndices (parse_ints (split_on ","%char body))
        | _ => None
        end
    end.

(** A position counted from the end when negative, clamped to the record. *)
Definition clamp (n : Z) (i : Z) : nat :=
  let j := if (i <? 0)%Z then (n + i)%Z else i in
  Z.to_nat (Z.max 0 (Z.min n j)).

Definition select_index {A} (row : list A) (i : Z) : list A :=
  let n := Z.of_nat (length row) in
  let j := if (i <? 0)%Z then (n + i)%Z else i in
  if ((0 <=? j) && (j <? n))%Z%bool
  then match nth_error row (Z.to_nat j) with Some x => [x] | None => [] end
  else [].

Definition apply_filter {A} (f : Filter) (row : list A) : list A :=
  match f with
  | FAll => row
  | FSlice lo hi =>
      let n := Z.of_nat (length row) in
      let l := match lo with Some i => clamp n i | None => O end in
      let h := match hi with Some i => clamp n i | None => length row end in
      firstn (h - l) (skipn l row)
  | FIndices js => flat_map (select_index row) js
  end.

(** One record through the transform step: the input filter selects what
    the model sees, [join_source="Input"] puts the model's output after the
    whole input record, the output filter selects what is written. *)
Definition transform_record {A} (args : TransformArgs)
    (model : list A -> list A) (row : list A) : option (list A) :=
  match parse_filter (ta_input_filter args),
        parse_filter (ta_output_filter args) with
  | Some fin, Some fout =>
      let prediction := model (apply_filter fin row) in
      let joined :=
        if String.eqb (ta_join_source args) "Input"
        then (row ++ prediction)%list else prediction in
      Some (apply_filter fout joined)
  | _, _ => None
  end.

(** The positions of the joined record (input columns first, then the
    predicted columns) that the output filter keeps. *)
Definition kept_positions (args : TransformArgs) (n_input n_predicted : nat)
  : option (list nat) :=
  option_map (fun f => apply_filter f (seq 0 (n_input + n_predicted)))
             (parse_filter (ta_output_filter args)).

(** The positions of the input record that the input filter passes on. *)
Definition passed_positions (args : TransformArgs) (n_input : nat)
  : option (list nat) :=
  option_map (fun f => apply_filter f (seq 0 n_input))
             (parse_filter (ta_input_filter args)).

(** ** A concrete platform and call, for running the model *)

Definition example_platform : Platform :=
  mkPlatform "/opt/ml/code/pipelines/hmda"
    (fun s => match sess_default_bucket s with
              | Some b => Some b
              | None => Some ("sagemaker-" ++ sess_region s ++ "-123456789012")
              end)
    (fun _ => Some "arn:aws:iam::123456789012:role/SageMakerExecutionRole")
    (fun r => inr (mkClient r))
    (fun _ name =>
       match name with
       | Some n => inr [("ProjectArn", "arn:aws:sagemaker:project/" ++ n)]
       | None => inl "ParamValidationError"
       end)
    (fun _ _ => inr (Some [mkTag "sagemaker:project-name" "hmda"])).

Definition example_args : Args := default_args "eu-west-1".

Definition example_bucket : string := "sagemaker-eu-west-1-123456789012".
Definition example_role : string :=
  "arn:aws:iam::123456789012:role/SageMakerExecutionRole".

Definition example_pipeline : Pipeline :=
  get_pipeline_body example_platform example_args example_bucket example_role.

(** ** The metrics bundles *)

(** A step with the steps nested in its branches. *)
Fixpoint substeps (s : Step) : list Step :=
  match s with
  | ConditionStep _ _ if_steps else_steps =>
      s :: (flat_map substeps if_steps ++ flat_map substeps else_steps)%list
  | _ => [s]
  end.

Definition all_steps (p : Pipeline) : list Step := flat_map substeps (pl_steps p).

(** The two bundles a registration attaches. *)
Definition registered_bundles (s : Step) : list (ModelMetrics * DriftCheckBaselines) :=
  match s with
  | ModelStep _ (ModelRegister _ _ _ _ _ _ _ mm dcb) => [(mm, dcb)]
  | _ => []
  end.

Definition pipeline_bundles (p : Pipeline) : list (ModelMetrics * DriftCheckBaselines) :=
  flat_map registered_bundles (all_steps p).

Definition bundle_values (b : ModelMetrics * DriftCheckBaselines) : list Value :=
  (map ms_s3_uri (model_metrics_sources (fst b))
   ++ map ms_s3_uri (drift_metrics_sources (snd b))
   ++ map fs_s3_uri (drift_file_sources (snd b)))%list.

(** The check steps configured by the object held in source variable [var]. *)
Definition config_owner (steps : list Step) (var : string) : list string :=
  flat_map (fun s =>
              match s with
              | ClarifyCheckStep n cfg _ _ _ _ _ =>
                  if String.eqb (clarify_var cfg) var then [n] else []
              | _ => []
              end) steps.

(** The steps a bundle field comes from: the step whose property it is, or
    the step whose configuration object it reads. *)
Definition value_source_steps (steps : list Step) (v : Value) : list string :=
  match v with
  | VAttr var _ => config_owner steps var
  | _ => value_steps v
  end.

Definition bundle_source_steps (p : Pipeline) : list string :=
  nodup string_dec
    (flat_map (value_source_steps (all_steps p))
       (flat_map bundle_values (pipeline_bundles p))).

(** Following the spec's words: the numbered stages of its "Behavior, step
    by step" list, each with the steps it describes. *)
Definition spec_stage_steps (n : nat) : list string :=
  match n with
  | 1 => ["PreprocessHMDAData"]
  | 2 => ["DataQualityCheckStep"]
  | 3 => ["DataBiasCheckStep"]
  | 4 => ["AutoMLStep"]
  | 5 => ["HMDACreateModel"]
  | 6 => ["HMDATransform"]
  | 7 => ["ModelQualityCheckStep"]
  | 8 => ["ModelBiasCheckStep"; "ModelExplainabilityCheckStep"]
  | 9 => ["EvaluateHMDAModel"]
  | _ => []
  end%nat.

(** Following the spec's words: "from steps 2,3,7,8,9". *)
Definition spec_metrics_stages : list nat := [2; 3; 7; 8; 9]%nat.

Definition check_steps : list string :=
  [ "DataQualityCheckStep"; "DataBiasCheckStep"; "ModelQualityCheckStep";
    "ModelBiasCheckStep"; "ModelExplainabilityCheckStep" ].

Definition calculated_baseline_properties : list string :=
  [ "CalculatedBaselineStatistics"; "CalculatedBaselineConstraints" ].

Definition drift_check_baseline_properties : list string :=
  [ "BaselineUsedForDriftCheckStatistics";
    "BaselineUsedForDriftCheckConstraints" ].

(** A metrics source that is property [attr] of a check step, [attr] among [attrs]. *)
Definition check_step_property (attrs : list string) (m : MetricsSource) : Prop :=
  exists s attr,
    ms_s3_uri m = VProp s [attr] /\ In s check_steps /\ In attr attrs
    /\ ms_content_type m = "application/json".

(** A file source that is the analysis-configuration file of a check step's
    configuration object. *)
Definition check_step_config_file (steps : list Step) (f : FileSource) : Prop :=
  exists var s,
    fs_s3_uri f = VAttr var "monitoring_analysis_config_uri"
    /\ config_owner steps var = [s] /\ In s check_steps.

(** ** Roles, sessions and stages of a step *)

(** The execution roles a step is built with. *)
Definition step_roles (s : Step) : list string :=
  match s with
  | ProcessingStep _ args _ => [skp_role (pa_processor args)]
  | QualityCheckStep _ _ _ _ job _ _ _ => [cj_role job]
  | ClarifyCheckStep _ _ job _ _ _ _ => [cj_role job]
  | AutoMLStep _ args _ => [aml_role (fit_auto_ml args)]
  | ModelStep _ m => [bm_role (model_args_model m)]
  | TransformStep _ _ => []
  | ConditionStep _ _ _ _ => []
  end.

(** The pipeline sessions a step is built with. *)
Definition step_sessions (s : Step) : list PipelineSession :=
  match s with
  | ProcessingStep _ args _ => [skp_sagemaker_session (pa_processor args)]
  | QualityCheckStep _ _ _ _ job _ _ _ => [cj_sagemaker_session job]
  | ClarifyCheckStep _ _ job _ _ _ _ => [cj_sagemaker_session job]
  | AutoMLStep _ args _ => [aml_sagemaker_session (fit_auto_ml args)]
  | ModelStep _ m => [bm_sagemaker_session (model_args_model m)]
  | TransformStep _ args => [tr_sagemaker_session (ta_transformer args)]
  | ConditionStep _ _ _ _ => []
  end.

Definition clarify_bias_config (c : ClarifyCheckConfig) : option BiasConfig :=
  match c with
  | DataBiasCheckConfig _ _ b => Some b
  | ModelBiasCheckConfig _ _ b _ _ => Some b
  | ModelExplainabilityCheckConfig _ _ _ _ => None
  end.

Definition step_clarify_config (s : Step) : option ClarifyCheckConfig :=
  match s with
  | ClarifyCheckStep _ cfg _ _ _ _ _ => Some cfg
  | _ => None
  end.

(** The stages of the workflow, and the stage a step carries out, read off
    what the step is: a processing job that reads no other step's output is
    the preprocessing, one that does is the evaluation. *)
Inductive Stage : Type :=
| Preprocess | DataQualityCheck | DataBiasCheck | ModelSearch | ModelCreation
| BatchTransform | ModelQualityCheck | ModelBiasCheck
| ModelExplainabilityCheck | Evaluation | Conditional | Registration.

Definition step_stage (s : Step) : Stage :=
  match s with
  | ProcessingStep _ args _ =>
      match flat_map value_steps (map pi_source (pa_inputs args)) with
      | [] => Preprocess
      | _ => Evaluation
      end
  | QualityCheckStep _ _ _ (DataQualityCheckConfig _ _ _) _ _ _ _ =>
      DataQualityCheck
  | QualityCheckStep _ _ _ (ModelQualityCheckConfig _ _ _ _ _ _) _ _ _ _ =>
      ModelQualityCheck
  | ClarifyCheckStep _ (DataBiasCheckConfig _ _ _) _ _ _ _ _ => DataBiasCheck
  | ClarifyCheckStep _ (ModelBiasCheckConfig _ _ _ _ _) _ _ _ _ _ =>
      ModelBiasCheck
  | ClarifyCheckStep _ (ModelExplainabilityCheckConfig _ _ _ _) _ _ _ _ _ =>
      ModelExplainabilityCheck
  | AutoMLStep _ _ _ => ModelSearch
  | ModelStep _ (ModelCreate _ _) => ModelCreation
  | ModelStep _ (ModelRegister _ _ _ _ _ _ _ _ _) => Registration
  | TransformStep _ _ => BatchTransform
  | ConditionStep _ _ _ _ => Conditional
  end.

(** The stages the workflow declares for the top-level step list. *)
Definition declared_stages : list Stage :=
  [ Preprocess; DataQualityCheck; DataBiasCheck; ModelSearch; ModelCreation;
    BatchTransform; ModelQualityCheck; ModelBiasCheck;
    ModelExplainabilityCheck; Evaluation; Conditional ].

(** An entry of a parameter list that is a declared parameter object. *)
Definition is_declared_parameter (v : Value) : bool :=
  match v with VParam _ => true | _ => false end.

(** The same call with another [training_instance_type]. *)
Definition with_training_instance_type (a : Args) (t : Value) : Args :=
  mkArgs (region a) (role a) (default_bucket a) (model_package_group_name a)
         (pipeline_name a) (base_job_prefix a) (processing_instance_type a)
         t (sagemaker_project_name a).

(** ** Well-formedness of the references between steps *)

(** A literal or a declared parameter: what a caller passes as an instance
    type. *)
Definition plain (v : Value) : bool :=
  match v with
  | VStr _ | VInt _ | VParam _ => true
  | _ => false
  end.

Definition step_declares_output (s : Step) (name : string) : bool :=
  match s with
  | ProcessingStep _ args _ =>
      existsb (fun o => String.eqb (po_output_name o) name) (pa_outputs args)
  | _ => false
  end.

Definition is_output_path (path : list string) : option string :=
  match path with
  | a :: b :: name :: _ =>
      if (String.eqb a "ProcessingOutputConfig" && String.eqb b "Outputs")%bool
      then Some name else None
  | _ => None
  end.

(** A value all of whose references are resolved by the steps in [earlier]:
    a step property names one of them, and when it addresses a processing
    output, that step declares the output; a configuration attribute is
    read off the configuration of one of them. *)
Fixpoint value_resolved (earlier : list Step) (v : Value) : bool :=
  match v with
  | VProp s path =>
      match find_step s earlier with
      | None => false
      | Some producer =>
          match is_output_path path with
          | Some name => step_declares_output producer name
          | None => true
          end
      end
  | VJoin _ vs => forallb (value_resolved earlier) vs
  | VAttr var _ =>
      match config_owner earlier var with [] => false | _ => true end
  | _ => true
  end.

Definition name_resolved (earlier : list Step) (name : string) : bool :=
  existsb (fun s => String.eqb (step_name s) name) earlier.

Definition property_file_eqb (f g : PropertyFile) : bool :=
  (String.eqb (pf_name f) (pf_name g)
   && String.eqb (pf_output_name f) (pf_output_name g)
   && String.eqb (pf_path f) (pf_path g))%bool.

(** A condition is resolved when the step it names is an earlier processing
    step that registers the property file and declares the output the file
    is read from. *)
Definition condition_resolved (earlier : list Step) (c : Condition) : bool :=
  match c with
  | ConditionGreaterThanOrEqualTo l _ =>
      match find_step (jg_step_name l) earlier with
      | Some (ProcessingStep _ args files) =>
          (existsb (property_file_eqb (jg_property_file l)) files
           && existsb (fun o => String.eqb (po_output_name o)
                                  (pf_output_name (jg_property_file l)))
                (pa_outputs args))%bool
      | _ => false
      end
  end.

Definition model_source_resolved (earlier : list Step) (s : Step) : bool :=
  match s with
  | ModelStep _ m =>
      match find_step (bm_automl_step (model_args_model m)) earlier with
      | Some (AutoMLStep _ _ _) => true
      | _ => false
      end
  | _ => true
  end.

(** Every reference of a step, explicit dependencies included, is resolved
    by the steps listed before it; the steps nested in a condition may also
    refer to the nested steps listed before them. *)
Fixpoint step_resolved (earlier : list Step) (s : Step) {struct s} : bool :=
  (forallb (value_resolved earlier) (step_values s)
   && forallb (name_resolved earlier) (explicit_dependencies s)
   && model_source_resolved earlier s
   && match s with
      | ConditionStep _ conds if_steps else_steps =>
          let nested :=
            fix nested (earlier : list Step) (l : list Step) : bool :=
              match l with
              | [] => true
              | x :: rest =>
                  (step_resolved earlier x && nested (earlier ++ [x])%list rest)%bool
              end in
          (forallb (condition_resolved earlier) conds
           && nested earlier if_steps && nested earlier else_steps)%bool
      | _ => true
      end)%bool.

Fixpoint steps_resolved (earlier : list Step) (l : list Step) : bool :=
  match l with
  | [] => true
  | x :: rest =>
      (step_resolved earlier x && steps_resolved (earlier ++ [x])%list rest)%bool
  end.

(** ** Parameters of a pipeline *)

Definition referenced_params (p : Pipeline) : list Param :=
  flat_map value_params (flat_map step_values (all_steps p)).

Definition declared_params (p : Pipeline) : list Param :=
  flat_map value_params (pl_parameters p).

(** Declared parameters, by name, that no step refers to. *)
Definition unused_parameter_names (p : Pipeline) : list string :=
  filter (fun n =>
            negb (existsb (String.eqb n)
                    (map parameter_name (referenced_params p))))
         (map parameter_name (declared_params p)).

Definition is_check (s : Step) : bool :=
  match s with
  | QualityCheckStep _ _ _ _ _ _ _ _ | ClarifyCheckStep _ _ _ _ _ _ _ => true
  | _ => false
  end.

Definition step_param_names (s : Step) : list string :=
  map parameter_name (flat_map value_params (step_values s)).

(** The model package groups a step names. *)
Definition step_model_package_groups (s : Step) : list string :=
  match s with
  | QualityCheckStep _ _ _ _ _ _ _ g => [g]
  | ClarifyCheckStep _ _ _ _ _ _ g => [g]
  | ModelStep _ (ModelRegister _ _ _ _ _ g _ _ _) => [g]
  | _ => []
  end.

(** ** Locations, consumers and columns *)

(** The text a value stands for in an execution with the given identifier:
    literals stand for themselves, the execution variable for the
    identifier, and [Join] puts the separator between its parts; step
    properties and parameters have no text before the run. *)
Fixpoint render (execution_id : string) (v : Value) : option string :=
  match v with
  | VStr s => Some s
  | VExec n =>
      if String.eqb n "PipelineExecutionId" then Some execution_id else None
  | VJoin on vs =>
      (fix parts (l : list Value) : option string :=
         match l with
         | [] => Some EmptyString
         | [x] => render execution_id x
         | x :: rest =>
             match render execution_id x, parts rest with
             | Some s, Some t => Some (s ++ on ++ t)
             | _, _ => None
             end
         end) vs
  | _ => None
  end.

Definition lower_ascii (c : ascii) : ascii :=
  let n := nat_of_ascii c in
  if ((65 <=? n) && (n <=? 90))%nat%bool then ascii_of_nat (n + 32) else c.

Fixpoint lower (s : string) : string :=
  match s with
  | EmptyString => EmptyString
  | String c rest => String (lower_ascii c) (lower rest)
  end.

(** Where a check step writes its results. *)
Definition check_output_uri (s : Step) : option Value :=
  match s with
  | QualityCheckStep _ _ _ (DataQualityCheckConfig _ _ o) _ _ _ _ => Some o
  | QualityCheckStep _ _ _ (ModelQualityCheckConfig _ _ o _ _ _) _ _ _ _ => Some o
  | ClarifyCheckStep _ cfg _ _ _ _ _ =>
      Some (dc_s3_output_path (clarify_data_config cfg))
  | _ => None
  end.

(** Where a Clarify check step writes its analysis configuration. *)
Definition check_analysis_config_path (s : Step) : option string :=
  match s with
  | ClarifyCheckStep _ cfg _ _ _ _ _ =>
      Some (dc_s3_analysis_config_output_path (clarify_data_config cfg))
  | _ => None
  end.

(** The processing outputs a value addresses, as (step, output) pairs. *)
Fixpoint value_outputs (v : Value) : list (string * string) :=
  match v with
  | VProp s path =>
      match is_output_path path with
      | Some name => [(s, name)]
      | None => []
      end
  | VJoin _ vs => flat_map value_outputs vs
  | _ => []
  end.

(** The processing outputs a step reads: those its values address, and for
    a condition step the outputs its report files are read from. *)
Definition step_reads (s : Step) : list (string * string) :=
  (flat_map value_outputs (step_values s)
   ++ match s with
      | ConditionStep _ conds _ _ =>
          map (fun c =>
                 match c with
                 | ConditionGreaterThanOrEqualTo l _ =>
                     (jg_step_name l, pf_output_name (jg_property_file l))
                 end) conds
      | _ => []
      end)%list.

Definition pair_eqb (x y : string * string) : bool :=
  (String.eqb (fst x) (fst y) && String.eqb (snd x) (snd y))%bool.

(** The steps that read a given output of a given step. *)
Definition output_consumers (steps : list Step) (producer output : string)
  : list string :=
  map step_name
      (filter (fun s => existsb (pair_eqb (producer, output)) (step_reads s))
              steps).

(** The outputs the processing steps declare, as (step, output) pairs. *)
Definition declared_outputs (steps : list Step) : list (string * string) :=
  flat_map (fun s =>
              match s with
              | ProcessingStep n args _ =>
                  map (fun o => (n, po_output_name o)) (pa_outputs args)
              | _ => []
              end) steps.

(** The column a headerless CSV attribute name [_cN] stands for. *)
Definition column_of_attribute (name : string) : option nat :=
  match name with
  | String "_" (String "c" digits) =>
      match digits with
      | EmptyString => None
      | _ => option_map Z.to_nat (parse_digits digits 0)
      end
  | _ => None
  end.

Definition model_quality_columns (s : Step)
  : option (Value * option nat * option nat) :=
  match s with
  | QualityCheckStep _ _ _ (ModelQualityCheckConfig d _ _ _ inf truth) _ _ _ _ =>
      Some (d, column_of_attribute truth, column_of_attribute inf)
  | _ => None
  end.

(** ** Variations of a call *)

Definition with_processing_instance_type (a : Args) (t : Value) : Args :=
  mkArgs (region a) (role a) (default_bucket a) (model_package_group_name a)
         (pipeline_name a) (base_job_prefix a) t
         (training_instance_type a) (sagemaker_project_name a).

Definition with_sagemaker_project_name (a : Args) (n : option string) : Args :=
  mkArgs (region a) (role a) (default_bucket a) (model_package_group_name a)
         (pipeline_name a) (base_job_prefix a) (processing_instance_type a)
         (training_instance_type a) n.

Definition is_processing (s : Step) : bool :=
  match s with ProcessingStep _ _ _ => true | _ => false end.

Definition step_instance_types (s : Step) : list Value :=
  match s with
  | ProcessingStep _ args _ => [skp_instance_type (pa_processor args)]
  | _ => []
  end.

(** [n] calls of [get_pipeline_custom_tags] in a row on the same list. *)
Fixpoint custom_tags_n_times (n : nat) (pf : Platform) (region : string)
    (sagemaker_project_name : option string) : M (list Tag) :=
  match n with
  | O => fun w => (inr (new_tags_obj w), w)
  | S k =>
      get_pipeline_custom_tags pf region sagemaker_project_name ;;;
      custom_tags_n_times k pf region sagemaker_project_name
  end.

(** The result locations of the check steps of a list, in an execution. *)
Definition rendered_check_outputs (execution_id : string) (steps : list Step)
  : list string :=
  flat_map (fun s =>
              match check_output_uri s with
              | Some o =>
                  match render execution_id o with
                  | Some t => [t]
                  | None => []
                  end
              | None => []
              end) steps.


Definition clarify_model_config (c : ClarifyCheckConfig) : option ModelConfig :=
  match c with
  | DataBiasCheckConfig _ _ _ => None
  | ModelBiasCheckConfig _ _ _ m _ => Some m
  | ModelExplainabilityCheckConfig _ _ m _ => Some m
  end.

(** The example platform with the project lookup and the tag listing
    failing and no execution role in the environment; clients are created
    as on the example platform. *)
Definition example_platform_offline : Platform :=
  mkPlatform (BASE_DIR example_platform)
    (session_default_bucket example_platform)
    (fun _ => None)
    (boto_sagemaker_client example_platform)
    (fun _ _ => inl "AccessDeniedException")
    (fun _ _ => inl "AccessDeniedException").

Definition example_args_with_role : Args :=
  mkArgs "eu-west-1" (Some example_role) None "HMDAPackageGroup" "HMDAPipeline"
         "HMDA" (VStr "ml.t3.large") (VStr "ml.m5.xlarge") None.


(** Everything a step waits for: its explicit and its inferred
    dependencies, each once. *)
Definition step_dependencies (s : Step) : list string :=
  nodup string_dec (explicit_dependencies s ++ inferred_dependencies s)%list.


(** * Properties *)

Lemma example_pipeline_returned :
  get_pipeline example_platform example_args = Some example_pipeline.
Proof. reflexivity. Qed.

(** A returned pipeline is the body run on the resolved bucket and role. *)
Lemma get_pipeline_inv (pf : Platform) (a : Args) (p : Pipeline) :
  get_pipeline pf a = Some p ->
  exists b r,
    session_default_bucket pf (get_session (region a) (default_bucket a)) = Some b
    /\ match role a with
       | None => get_execution_role pf (get_session (region a) (default_bucket a))
       | Some r' => Some r'
       end = Some r
    /\ p = get_pipeline_body pf a b r.
Proof.
  unfold get_pipeline.
  destruct (session_default_bucket pf _) as [b|]; [|discriminate].
  destruct (match role a with None => _ | Some r' => _ end) as [r|] eqn:Hr;
    [|discriminate].
  intros [= <-]. exists b, r. auto.
Qed.

Ltac pipeline_of H :=
  let b := fresh "bucket" in
  let r := fresh "role" in
  let Hb := fresh "Hbucket" in
  let Hr := fresh "Hrole" in
  apply get_pipeline_inv in H; destruct H as (b & r & Hb & Hr & ->).

(** ** The registration condition *)

Lemma weighted_f1_path :
  split_on "."%char "classification_metrics.weighted_f1.value"
  = ["classification_metrics"; "weighted_f1"; "value"].
Proof. reflexivity. Qed.



(** ** The metrics bundles *)

(** C2, as stated, fails: the steps the spec's numbering 2,3,7,8,9 names
    include the evaluation step (its stage 9), and no field of either
    bundle comes from that step. *)
Lemma C2_spec_stage_9_contributes_nothing :
  ~ (forall s : string,
       In s (bundle_source_steps example_pipeline)
       <-> In s (flat_map spec_stage_steps spec_metrics_stages)).
Proof.
  intros H.
  assert (Hin : In "EvaluateHMDAModel" (flat_map spec_stage_steps spec_metrics_stages))
    by (vm_compute; tauto).
  apply H in Hin. vm_compute in Hin.
  repeat (destruct Hin as [Hin|Hin]; [discriminate Hin|]). exact Hin.
Qed.

(** C2, amended.  A returned pipeline registers one pair of bundles.  Every
    field of the calculated-baseline bundle is a [CalculatedBaseline*]
    property of a check step, every metrics field of the drift-check bundle
    is a [BaselineUsedForDriftCheck*] property of a check step (which
    property of which step is listed field by field), and its two file
    fields are the analysis-configuration files of the model-bias check's
    and of the model-explainability check's configuration, in that order.
    The steps the fields come
    from are exactly the five check steps, the spec's stages 2, 3, 7 and 8
    (and the 2nd, 3rd, 7th, 8th and 9th entries of the pipeline's step
    list); the evaluation step (stage 9) contributes no field. *)
Theorem C2_bundles_come_from_the_five_check_steps
    (pf : Platform) (a : Args) (p : Pipeline) :
  get_pipeline pf a = Some p ->
  exists mm dcb,
    pipeline_bundles p = [(mm, dcb)]
    /\ Forall (check_step_property calculated_baseline_properties)
         (model_metrics_sources mm)
    /\ Forall (check_step_property drift_check_baseline_properties)
         (drift_metrics_sources dcb)
    /\ Forall (check_step_config_file (all_steps p)) (drift_file_sources dcb)
    /\ map ms_s3_uri (model_metrics_sources mm)
       = [ VProp "DataQualityCheckStep" ["CalculatedBaselineStatistics"];
           VProp "DataQualityCheckStep" ["CalculatedBaselineConstraints"];
           VProp "DataBiasCheckStep" ["CalculatedBaselineConstraints"];
           VProp "ModelQualityCheckStep" ["CalculatedBaselineStatistics"];
           VProp "ModelQualityCheckStep" ["CalculatedBaselineConstraints"];
           VProp "ModelBiasCheckStep" ["CalculatedBaselineConstraints"];
           VProp "ModelBiasCheckStep" ["CalculatedBaselineConstraints"];
           VProp "ModelExplainabilityCheckStep"
             ["CalculatedBaselineConstraints"] ]
    /\ map ms_s3_uri (drift_metrics_sources dcb)
       = [ VProp "DataQualityCheckStep" ["BaselineUsedForDriftCheckStatistics"];
           VProp "DataQualityCheckStep" ["BaselineUsedForDriftCheckConstraints"];
           VProp "DataBiasCheckStep" ["BaselineUsedForDriftCheckConstraints"];
           VProp "ModelQualityCheckStep" ["BaselineUsedForDriftCheckStatistics"];
           VProp "ModelQualityCheckStep"
             ["BaselineUsedForDriftCheckConstraints"];
           VProp "ModelBiasCheckStep" ["BaselineUsedForDriftCheckConstraints"];
           VProp "ModelExplainabilityCheckStep"
             ["BaselineUsedForDriftCheckConstraints"] ]
    /\ (exists bias_cfg expl_cfg,
          option_map step_clarify_config
            (find_step "ModelBiasCheckStep" (pl_steps p))
          = Some (Some bias_cfg)
          /\ option_map step_clarify_config
               (find_step "ModelExplainabilityCheckStep" (pl_steps p))
             = Some (Some expl_cfg)
          /\ clarify_var bias_cfg <> clarify_var expl_cfg
          /\ dcb_bias_config_file dcb
             = mkFileSource (monitoring_analysis_config_uri bias_cfg)
                 "application/json"
          /\ dcb_explainability_config_file dcb
             = mkFileSource (monitoring_analysis_config_uri expl_cfg)
                 "application/json"
          /\ config_owner (all_steps p) (clarify_var bias_cfg)
             = ["ModelBiasCheckStep"]
          /\ config_owner (all_steps p) (clarify_var expl_cfg)
             = ["ModelExplainabilityCheckStep"])
    /\ bundle_source_steps p = check_steps
    /\ flat_map spec_stage_steps [2; 3; 7; 8]%nat = check_steps
    /\ map (fun i => option_map step_name (nth_error (pl_steps p) (i - 1)))
         spec_metrics_stages
       = map Some check_steps
    /\ ~ In "EvaluateHMDAModel" (bundle_source_steps p).
Proof.
  intros H. pipeline_of H.
  exists (model_metrics pf a bucket role0), (drift_check_baselines pf a bucket role0).
  split; [reflexivity|].
  split.
  { repeat constructor; do 2 eexists;
      (split; [reflexivity|]); (split; [|split; [|reflexivity]]);
      cbn; auto 10. }
  split.
  { repeat constructor; do 2 eexists;
      (split; [reflexivity|]); (split; [|split; [|reflexivity]]);
      cbn; auto 10. }
  split.
  { repeat constructor; do 2 eexists;
      (split; [reflexivity|]); (split; [reflexivity|]); cbn; auto 10. }
  split; [reflexivity|].
  split; [reflexivity|].
  split.
  { exists (model_bias_check_config pf a bucket role0),
           (model_explainability_check_config pf a bucket role0).
    split; [reflexivity|]. split; [reflexivity|].
    split; [discriminate|]. repeat split. }
  split; [reflexivity|].
  split; [reflexivity|].
  split; [reflexivity|].
  change (bundle_source_steps (get_pipeline_body pf a bucket role0))
    with check_steps.
  cbn. intros Hin.
  repeat (destruct Hin as [Hin|Hin]; [discriminate Hin|]). exact Hin.
Qed.

(** ** The batch transform *)

Section FilterFacts.
Context {A : Type}.

(** [$[1:]] drops the first column and nothing else. *)
Lemma slice_from_1 (x : A) (l : list A) :
  apply_filter (FSlice (Some 1%Z) None) (x :: l) = l.
Proof.
  unfold apply_filter, clamp.
  replace (Z.to_nat _) with 1%nat.
  - cbn [length skipn]. replace (S (length l) - 1)%nat with (length l) by lia.
    apply firstn_all.
  - cbn [length]. change (1 <? 0)%Z with false. cbv iota. lia.
Qed.

Lemma nth_error_last (l : list A) (d : A) :
  l <> [] -> nth_error l (length l - 1) = Some (last l d).
Proof.
  induction l as [|x [|y l] IH]; intros Hne.
  - contradiction.
  - reflexivity.
  - change (last (x :: y :: l) d) with (last (y :: l) d).
    rewrite <- IH by discriminate.
    cbn [length]. replace (S (S (length l)) - 1)%nat with (S (length l)) by lia.
    cbn [nth_error]. f_equal. lia.
Qed.

Lemma select_first (x : A) (l : list A) : select_index (x :: l) 0 = [x].
Proof.
  unfold select_index. cbn [length].
  change (0 <? 0)%Z with false. cbv iota.
  replace ((0 <=? 0)%Z && (0 <? Z.of_nat (S (length l)))%Z)%bool with true.
  - reflexivity.
  - symmetry. apply andb_true_intro. split; [reflexivity|].
    apply Z.ltb_lt. lia.
Qed.

Lemma select_last (l : list A) (d : A) :
  l <> [] -> select_index l (-1) = [last l d].
Proof.
  intros Hne. unfold select_index.
  change (-1 <? 0)%Z with true. cbv iota.
  assert (Hlen : (0 < length l)%nat) by (destruct l; [contradiction | cbn; lia]).
  replace ((0 <=? Z.of_nat (length l) + -1)%Z
           && (Z.of_nat (length l) + -1 <? Z.of_nat (length l))%Z)%bool with true.
  - replace (Z.to_nat (Z.of_nat (length l) + -1)) with (length l - 1)%nat by lia.
    now rewrite (nth_error_last l d Hne).
  - symmetry. apply andb_true_intro. split.
    + apply Z.leb_le. lia.
    + apply Z.ltb_lt. lia.
Qed.

(** [$[0,-1]] keeps the first and the last column of a record. *)
Lemma first_and_last (x : A) (l : list A) :
  apply_filter (FIndices [0%Z; (-1)%Z]) (x :: l) = [x; last (x :: l) x].
Proof.
  unfold apply_filter. cbn [flat_map].
  rewrite select_first, (select_last (x :: l) x) by discriminate.
  reflexivity.
Qed.
End FilterFacts.

Lemma last_seq (start n : nat) : last (seq start (S n)) start = (start + n)%nat.
Proof. rewrite seq_S. apply last_last. Qed.

(** C3, as stated, fails on the output filter: of a joined record of three
    input columns and one predicted column it keeps positions 0 and 3, and
    position 0 is an input column, neither a predicted one nor the last. *)
Lemma C3_output_filter_keeps_the_first_input_column :
  exists args,
    find_step "HMDATransform" (pl_steps example_pipeline)
    = Some (TransformStep "HMDATransform" args)
    /\ kept_positions args 3 1 = Some [0; 3]%nat
    /\ ~ (forall (n_input n_predicted : nat) (kept : list nat) (i : nat),
            kept_positions args n_input n_predicted = Some kept ->
            In i kept ->
            (n_input <= i \/ i = n_input + n_predicted - 1)%nat).
Proof.
  eexists. split; [reflexivity|]. split; [reflexivity|].
  intros H.
  destruct (H 3 1 [0; 3] 0)%nat as [Hle|Heq]; [reflexivity | cbn; auto | lia | lia].
Qed.

(** C3, amended.  In every returned pipeline the transform step applies the
    created model to the preprocess step's [test] output; split type and
    assembly are ["Line"] and the join source is ["Input"]; the input filter
    [$[1:]] passes on every input column but the first; the output filter
    [$[0,-1]] keeps the first and the last column of the joined record,
    that is the first input column and the last predicted column. *)
Theorem C3_transform_filters
    (pf : Platform) (a : Args) (p : Pipeline) :
  get_pipeline pf a = Some p ->
  exists args,
    find_step "HMDATransform" (pl_steps p)
    = Some (TransformStep "HMDATransform" args)
    /\ ta_data args
       = VProp "PreprocessHMDAData"
           ["ProcessingOutputConfig"; "Outputs"; "test"; "S3Output"; "S3Uri"]
    /\ tr_model_name (ta_transformer args) = VProp "HMDACreateModel" ["ModelName"]
    /\ ta_split_type args = "Line"
    /\ tr_assemble_with (ta_transformer args) = "Line"
    /\ ta_join_source args = "Input"
    /\ ta_input_filter args = "$[1:]"
    /\ ta_output_filter args = "$[0,-1]"
    /\ (forall n : nat, passed_positions args (S n) = Some (seq 1 n))
    /\ (forall n m : nat, kept_positions args (S n) m = Some [0; n + m]%nat)
    /\ (forall (A : Type) (model : list A -> list A) (c0 : A) (rest : list A),
          transform_record args model (c0 :: rest)
          = Some [c0; last (rest ++ model rest)%list c0]).
Proof.
  intros H. pipeline_of H.
  eexists. split; [reflexivity|].
  repeat (split; [reflexivity|]).
  split; [|split].
  - intros n. unfold passed_positions.
    change (parse_filter _) with (Some (FSlice (Some 1%Z) None)).
    cbn [option_map]. change (seq 0 (S n)) with (0%nat :: seq 1 n).
    now rewrite slice_from_1.
  - intros n m. unfold kept_positions.
    change (parse_filter _) with (Some (FIndices [0%Z; (-1)%Z])).
    cbn [option_map]. change (seq 0 (S n + m)) with (0%nat :: seq 1 (n + m)).
    rewrite first_and_last.
    change (0%nat :: seq 1 (n + m)) with (seq 0 (S (n + m))).
    now rewrite last_seq.
  - intros A model c0 rest. unfold transform_record.
    change (parse_filter (ta_input_filter _)) with (Some (FSlice (Some 1%Z) None)).
    change (parse_filter (ta_output_filter _)) with (Some (FIndices [0%Z; (-1)%Z])).
    change (String.eqb (ta_join_source _) "Input") with true.
    cbv iota beta zeta.
    rewrite slice_from_1.
    change ((c0 :: rest) ++ model rest)%list with (c0 :: (rest ++ model rest))%list.
    rewrite first_and_last.
    destruct (rest ++ model rest)%list eqn:E; reflexivity.
Qed.

(** ** The model search *)

(** C4.  In every returned pipeline the search step lists exactly the two
    check steps ["DataQualityCheckStep"] and ["DataBiasCheckStep"] in its
    [depends_on], both are steps of the pipeline, and neither follows from
    the data it reads, which refers to the preprocess step only: its single
    training input is the preprocess step's [train] output.  Its
    configuration gives the candidate bound, the two time budgets, the
    objective metric and the ensembling mode. *)
Theorem C4_model_search_step
    (pf : Platform) (a : Args) (p : Pipeline) :
  get_pipeline pf a = Some p ->
  exists search args input,
    find_step "AutoMLStep" (pl_steps p) = Some search
    /\ search = AutoMLStep "AutoMLStep" args
                  ["DataQualityCheckStep"; "DataBiasCheckStep"]
    /\ explicit_dependencies search
       = ["DataQualityCheckStep"; "DataBiasCheckStep"]
    /\ inferred_dependencies search = ["PreprocessHMDAData"]
    /\ option_map step_stage (find_step "DataQualityCheckStep" (pl_steps p))
       = Some DataQualityCheck
    /\ option_map step_stage (find_step "DataBiasCheckStep" (pl_steps p))
       = Some DataBiasCheck
    /\ option_map step_stage (find_step "PreprocessHMDAData" (pl_steps p))
       = Some Preprocess
    /\ fit_inputs args = [input]
    /\ ami_inputs input
       = VProp "PreprocessHMDAData"
           ["ProcessingOutputConfig"; "Outputs"; "train"; "S3Output"; "S3Uri"]
    /\ ami_channel_type input = "training"
    /\ aml_max_candidates (fit_auto_ml args) = 1%Z
    /\ aml_max_runtime_per_training_job_in_seconds (fit_auto_ml args) = 180%Z
    /\ aml_total_job_runtime_in_seconds (fit_auto_ml args) = 540%Z
    /\ aml_job_objective (fit_auto_ml args) = [("MetricName", "F1")]
    /\ aml_mode (fit_auto_ml args) = "ENSEMBLING".
Proof.
  intros H. pipeline_of H.
  do 3 eexists. split; [reflexivity|]. split; [reflexivity|].
  repeat split.
Qed.

Lemma C4_model_search_step_witness :
  get_pipeline example_platform example_args = Some example_pipeline
  /\ exists search,
       find_step "AutoMLStep" (pl_steps example_pipeline) = Some search
       /\ explicit_dependencies search
          = ["DataQualityCheckStep"; "DataBiasCheckStep"]
       /\ inferred_dependencies search = ["PreprocessHMDAData"].
Proof.
  split; [reflexivity|].
  destruct (C4_model_search_step example_platform example_args example_pipeline
              eq_refl)
    as (search & args & input & Hfind & _ & Hexp & Hinf & _).
  exists search. auto.
Defined.

(** ** Resolution of the role and the bucket *)

(** C5.  [get_pipeline] needs the region only ([default_args] leaves the
    role and the bucket out).  No pipeline is returned when the session
    yields no bucket, or when no role was given and the environment yields
    no execution role.  The bucket of a returned pipeline is the one
    the session yields (the session's own default when the argument was
    [None]); the role is the argument, or the environment's execution role
    for that session when the argument was [None]; and every step, nested
    ones included, is built with that role and with a pipeline session on
    that bucket. *)
Theorem C5_role_and_bucket_resolution (pf : Platform) (a : Args) :
  (forall r : string,
     role (default_args r) = None /\ default_bucket (default_args r) = None)
  /\ (session_default_bucket pf (get_session (region a) (default_bucket a))
      = None
      \/ (role a = None
          /\ get_execution_role pf (get_session (region a) (default_bucket a))
             = None) ->
      get_pipeline pf a = None)
  /\ forall p : Pipeline,
       get_pipeline pf a = Some p ->
       exists b r,
         session_default_bucket pf (get_session (region a) (default_bucket a))
         = Some b
         /\ (default_bucket a = None ->
             session_default_bucket pf (mkSession (region a) None) = Some b)
         /\ (role a = None ->
             get_execution_role pf (mkSession (region a) (default_bucket a))
             = Some r)
         /\ (forall r', role a = Some r' -> r = r')
         /\ pl_sagemaker_session p = mkPipelineSession (region a) (Some b)
         /\ Forall (fun s => Forall (eq r) (step_roles s)) (all_steps p)
         /\ Forall (fun s =>
                      Forall (eq (mkPipelineSession (region a) (Some b)))
                             (step_sessions s))
              (all_steps p)
         /\ In (VParam (ParameterString "InputDataUrl"
                          ("s3://" ++ b ++ "/dataset/state_DC.csv")))
               (pl_parameters p).
Proof.
  split; [intros r; split; reflexivity|].
  split.
  - unfold get_pipeline. intros [Hb|[Hnone Hr]].
    + now rewrite Hb.
    + destruct (session_default_bucket pf _) as [b|]; [|reflexivity].
      now rewrite Hnone, Hr.
  - intros p H. pipeline_of H. exists bucket, role0.
    split; [exact Hbucket|].
    split; [intros Hnone; rewrite Hnone in Hbucket; exact Hbucket|].
    split; [intros Hnone; rewrite Hnone in Hrole; exact Hrole|].
    split; [intros r' Hsome; rewrite Hsome in Hrole; congruence|].
    split; [reflexivity|].
    split; [repeat constructor|].
    split; [repeat constructor|].
    cbn. auto 10.
Qed.

Lemma C5_role_and_bucket_resolution_witness :
  get_pipeline example_platform example_args = Some example_pipeline
  /\ exists b r,
       session_default_bucket example_platform
         (mkSession "eu-west-1" None) = Some b
       /\ get_execution_role example_platform
            (mkSession "eu-west-1" None) = Some r
       /\ Forall (fun s => Forall (eq r) (step_roles s))
            (all_steps example_pipeline).
Proof.
  split; [reflexivity|].
  destruct (C5_role_and_bucket_resolution example_platform example_args)
    as (_ & _ & H).
  destruct (H example_pipeline eq_refl)
    as (b & r & _ & Hb & Hr & _ & _ & Hroles & _).
  exists b, r. split; [exact (Hb eq_refl)|]. split; [exact (Hr eq_refl)|].
  exact Hroles.
Defined.

(** ** The preprocess step *)

(** C6.  In every returned pipeline the preprocess step is a processing job
    that runs the script [preprocess.py]; the one thing it is given is the
    raw-data location parameter [InputDataUrl], a declared parameter of the
    pipeline, passed as the script's [--input-data] argument (no input
    channel and no other step's output is read); and it declares exactly
    the three outputs [train], [train_no_header] and [test]. *)
Theorem C6_preprocess_step
    (pf : Platform) (a : Args) (p : Pipeline) :
  get_pipeline pf a = Some p ->
  exists step args raw_data default,
    find_step "PreprocessHMDAData" (pl_steps p) = Some step
    /\ step = ProcessingStep "PreprocessHMDAData" args []
    /\ step_stage step = Preprocess
    /\ pa_code args = os_path_join (BASE_DIR pf) "preprocess.py"
    /\ raw_data = ParameterString "InputDataUrl" default
    /\ pa_arguments args = [VStr "--input-data"; VParam raw_data]
    /\ pa_inputs args = []
    /\ flat_map value_params (map pi_source (pa_inputs args) ++ pa_arguments args)
       = [raw_data]
    /\ flat_map value_steps (map pi_source (pa_inputs args) ++ pa_arguments args)
       = []
    /\ In (VParam raw_data) (pl_parameters p)
    /\ map po_output_name (pa_outputs args)
       = ["train"; "train_no_header"; "test"]
    /\ length (pa_outputs args) = 3%nat
    /\ NoDup (map po_output_name (pa_outputs args)).
Proof.
  intros H. pipeline_of H.
  do 4 eexists.
  split; [reflexivity|]. split; [reflexivity|].
  split; [reflexivity|]. split; [reflexivity|].
  split; [reflexivity|]. split; [reflexivity|].
  split; [reflexivity|]. split; [reflexivity|].
  split; [reflexivity|].
  split; [cbn; auto 10|].
  split; [reflexivity|]. split; [reflexivity|].
  cbn. repeat constructor; cbn; intuition discriminate.
Qed.

Lemma C6_preprocess_step_witness :
  get_pipeline example_platform example_args = Some example_pipeline
  /\ exists step args,
       find_step "PreprocessHMDAData" (pl_steps example_pipeline) = Some step
       /\ step = ProcessingStep "PreprocessHMDAData" args []
       /\ map po_output_name (pa_outputs args)
          = ["train"; "train_no_header"; "test"].
Proof.
  split; [reflexivity|].
  destruct (C6_preprocess_step example_platform example_args example_pipeline
              eq_refl)
    as (step & args & raw & d & Hfind & Hstep & _ & _ & _ & _ & _ & _ & _ & _
        & Hout & _).
  exists step, args. auto.
Defined.

(** ** Runs on the example call *)


Lemma C2_bundles_come_from_the_five_check_steps_witness :
  get_pipeline example_platform example_args = Some example_pipeline
  /\ bundle_source_steps example_pipeline = check_steps.
Proof.
  split; [reflexivity|].
  destruct (C2_bundles_come_from_the_five_check_steps
              example_platform example_args example_pipeline eq_refl)
    as (mm & dcb & _ & _ & _ & _ & _ & _ & _ & Hsrc & _).
  exact Hsrc.
Defined.

Lemma C3_transform_filters_witness :
  get_pipeline example_platform example_args = Some example_pipeline
  /\ exists args,
       find_step "HMDATransform" (pl_steps example_pipeline)
       = Some (TransformStep "HMDATransform" args)
       /\ transform_record args (fun _ => ["1"]) ["0"; "a"; "b"]
          = Some ["0"; "1"].
Proof.
  split; [reflexivity|].
  destruct (C3_transform_filters
              example_platform example_args example_pipeline eq_refl)
    as (args & Hfind & _ & _ & _ & _ & _ & _ & _ & _ & _ & Hrec).
  exists args. split; [exact Hfind|].
  exact (Hrec string (fun _ => ["1"]) "0" ["a"; "b"]).
Defined.

(** ** The two bias checks *)

Lemma append_inv_head (a x y : string) : a ++ x = a ++ y -> x = y.
Proof.
  induction a as [|c a IH]; cbn; intros H; [exact H|].
  injection H as H. auto.
Qed.

(** The analysis-configuration paths of the two bias checks differ, whatever
    the bucket and the prefix. *)
Lemma bias_analysis_paths_differ (b pre : string) :
  "s3://" ++ b ++ "/" ++ pre ++ "/databiascheckstep/analysis_cfg"
  <> "s3://" ++ b ++ "/" ++ pre ++ "/modelbiascheckstep/analysis_cfg".
Proof.
  intros H. apply (append_inv_head "s3://") in H.
  apply append_inv_head in H. apply (append_inv_head "/") in H.
  apply append_inv_head in H. discriminate H.
Qed.

(** C7, as stated, fails: besides the model and the predicted-label
    configuration, the two checks differ in where they write. *)
Lemma C7_bias_checks_differ_in_output_locations :
  exists data_bias model_bias,
    option_map step_clarify_config
      (find_step "DataBiasCheckStep" (pl_steps example_pipeline))
    = Some (Some data_bias)
    /\ option_map step_clarify_config
         (find_step "ModelBiasCheckStep" (pl_steps example_pipeline))
       = Some (Some model_bias)
    /\ ~ (clarify_data_config data_bias = clarify_data_config model_bias
          /\ clarify_bias_config data_bias = clarify_bias_config model_bias).
Proof.
  do 2 eexists. split; [reflexivity|]. split; [reflexivity|].
  intros [H _]. discriminate H.
Qed.

(** C7, amended.  In every returned pipeline the model-bias check has the
    data-bias check's label column ([action_taken]), ordered header list,
    dataset type, input data, facet columns and label threshold; it differs
    in naming the created model and a predicted-label configuration, and in
    its two output locations: the result location and the
    analysis-configuration path of the two checks both differ, each ending
    in (respectively containing) its own step's name in lower case. *)
Theorem C7_model_bias_mirrors_data_bias
    (pf : Platform) (a : Args) (p : Pipeline) :
  get_pipeline pf a = Some p ->
  exists v1 v2 d1 d2 bias model job1 job2 skip1 skip2 reg1 reg2 sup1 sup2 g1 g2,
    find_step "DataBiasCheckStep" (pl_steps p)
    = Some (ClarifyCheckStep "DataBiasCheckStep"
              (DataBiasCheckConfig v1 d1 bias) job1 skip1 reg1 sup1 g1)
    /\ find_step "ModelBiasCheckStep" (pl_steps p)
       = Some (ClarifyCheckStep "ModelBiasCheckStep"
                 (ModelBiasCheckConfig v2 d2 bias model
                    mkModelPredictedLabelConfig)
                 job2 skip2 reg2 sup2 g2)
    /\ dc_label d1 = "action_taken" /\ dc_label d2 = "action_taken"
    /\ dc_headers d2 = dc_headers d1
    /\ length (dc_headers d1) = 27%nat
    /\ bc_facet_name bias
       = [ "derived_sex"; "derived_age_above_62"; "derived_age_below_25";
           "derived_race_revisited"; "if_co-applicant" ]
    /\ bc_label_values_or_threshold bias = [1%Z]
    /\ incl (bc_facet_name bias) (dc_headers d1)
    /\ d2 = mkDataConfig (dc_s3_data_input_path d1) (dc_s3_output_path d2)
              (dc_s3_analysis_config_output_path d2) (dc_label d1)
              (dc_headers d1) (dc_dataset_type d1)
    /\ dc_s3_output_path d1 <> dc_s3_output_path d2
    /\ dc_s3_analysis_config_output_path d1
       <> dc_s3_analysis_config_output_path d2
    /\ (exists b,
          psess_default_bucket (pl_sagemaker_session p) = Some b
          /\ dc_s3_output_path d1
             = VJoin "/" [ VStr "s3:/"; VStr b; VStr (base_job_prefix a);
                           PIPELINE_EXECUTION_ID;
                           VStr (lower "DataBiasCheckStep") ]
          /\ dc_s3_output_path d2
             = VJoin "/" [ VStr "s3:/"; VStr b; VStr (base_job_prefix a);
                           PIPELINE_EXECUTION_ID;
                           VStr (lower "ModelBiasCheckStep") ]
          /\ dc_s3_analysis_config_output_path d1
             = "s3://" ++ b ++ "/" ++ base_job_prefix a ++ "/"
                 ++ lower "DataBiasCheckStep" ++ "/analysis_cfg"
          /\ dc_s3_analysis_config_output_path d2
             = "s3://" ++ b ++ "/" ++ base_job_prefix a ++ "/"
                 ++ lower "ModelBiasCheckStep" ++ "/analysis_cfg")
    /\ mc_model_name model = VProp "HMDACreateModel" ["ModelName"]
    /\ job1 = job2 /\ g1 = g2.
Proof.
  intros H. pipeline_of H.
  do 16 eexists.
  split; [reflexivity|]. split; [reflexivity|].
  repeat (split; [reflexivity|]).
  split; [intros x Hx; cbn in Hx |-*; intuition auto 30|].
  split; [reflexivity|].
  split; [discriminate|].
  split; [apply bias_analysis_paths_differ|].
  split; [exists bucket; repeat split|].
  repeat split.
Qed.

Lemma C7_model_bias_mirrors_data_bias_witness :
  get_pipeline example_platform example_args = Some example_pipeline
  /\ exists c1 c2,
       option_map step_clarify_config
         (find_step "DataBiasCheckStep" (pl_steps example_pipeline))
       = Some (Some c1)
       /\ option_map step_clarify_config
            (find_step "ModelBiasCheckStep" (pl_steps example_pipeline))
          = Some (Some c2)
       /\ dc_headers (clarify_data_config c2) = dc_headers (clarify_data_config c1)
       /\ clarify_bias_config c1 = clarify_bias_config c2.
Proof.
  split; [reflexivity|].
  destruct (C7_model_bias_mirrors_data_bias
              example_platform example_args example_pipeline eq_refl)
    as (v1 & v2 & d1 & d2 & bias & model & job1 & job2 & skip1 & skip2 & reg1
        & reg2 & sup1 & sup2 & g1 & g2 & H1 & H2 & _ & _ & Hh & _).
  exists (DataBiasCheckConfig v1 d1 bias),
         (ModelBiasCheckConfig v2 d2 bias model mkModelPredictedLabelConfig).
  rewrite H1, H2. repeat split. exact Hh.
Defined.

(** ** The custom tags *)

(** The loop appends every fetched tag, in order, and cannot raise. *)
Lemma for_each_append (tags : list Tag) (w : World) :
  for_each tags (fun project_tag => append project_tag) w
  = (inr tt, mkWorld (new_tags_obj w ++ tags)%list (stdout w)).
Proof.
  revert w. induction tags as [|t tags IH]; intros [cur out].
  - cbn. now rewrite app_nil_r.
  - cbn [for_each]. unfold bind at 1. unfold append at 1.
    rewrite IH. cbn. now rewrite <- app_assoc.
Qed.

(** C8.  Whatever the tag list, the region, the project name and the
    behaviour of the platform, [get_pipeline_custom_tags] returns (it never
    raises) the list object it was given: holding the supplied tags followed
    by the project's tags when every call of the lookup succeeded, and
    exactly the supplied tags when any of them raised, in which case one
    line is printed. *)
Theorem C8_custom_tags_never_raise
    (pf : Platform) (new_tags : list Tag) (region : string)
    (sagemaker_project_name : option string) :
  run_custom_tags pf new_tags region sagemaker_project_name
  = match fetch_project_tags pf region sagemaker_project_name with
    | inr project_tags =>
        (inr (new_tags ++ project_tags)%list,
         mkWorld (new_tags ++ project_tags)%list [])
    | inl e =>
        (inr new_tags,
         mkWorld new_tags ["Error getting project tags: " ++ e])
    end.
Proof.
  unfold run_custom_tags, get_pipeline_custom_tags, fetch_project_tags.
  unfold bind, try_except, call, print.
  destruct (get_sagemaker_client pf region) as [e|sm_client]; [reflexivity|].
  destruct (describe_project pf sm_client sagemaker_project_name)
    as [e|response]; [reflexivity|].
  destruct (getitem response "ProjectArn") as [e|arn]; [reflexivity|].
  destruct (list_tags pf sm_client arn) as [e|[tags|]]; [reflexivity| |reflexivity].
  rewrite for_each_append. reflexivity.
Qed.

(** ** The step list *)

(** C9.  Every returned pipeline has eleven top-level steps, one for each
    declared stage and in that order; their names are pairwise distinct,
    also when the registration step nested in the condition is counted. *)
Theorem C9_one_step_per_stage
    (pf : Platform) (a : Args) (p : Pipeline) :
  get_pipeline pf a = Some p ->
  map step_stage (pl_steps p) = declared_stages
  /\ NoDup declared_stages
  /\ length (pl_steps p) = 11%nat
  /\ map step_name (pl_steps p)
     = [ "PreprocessHMDAData"; "DataQualityCheckStep"; "DataBiasCheckStep";
         "AutoMLStep"; "HMDACreateModel"; "HMDATransform";
         "ModelQualityCheckStep"; "ModelBiasCheckStep";
         "ModelExplainabilityCheckStep"; "EvaluateHMDAModel";
         "CheckF1HMDAEvaluation" ]
  /\ NoDup (map step_name (pl_steps p))
  /\ NoDup (map step_name (all_steps p)).
Proof.
  intros H. pipeline_of H.
  split; [reflexivity|].
  split; [repeat constructor; cbn; intuition discriminate|].
  split; [reflexivity|]. split; [reflexivity|].
  split; cbn; repeat constructor; cbn; intuition discriminate.
Qed.

Lemma C9_one_step_per_stage_witness :
  get_pipeline example_platform example_args = Some example_pipeline
  /\ length (pl_steps example_pipeline) = 11%nat
  /\ NoDup (map step_name (pl_steps example_pipeline)).
Proof.
  split; [reflexivity|].
  destruct (C9_one_step_per_stage example_platform example_args
              example_pipeline eq_refl)
    as (_ & _ & Hlen & _ & Hnodup & _).
  split; assumption.
Defined.

(** ** The parameter list *)

(** C10.  The parameter list of every returned pipeline has the
    [processing_instance_type] argument first and the
    [training_instance_type] argument third, as they were passed; in a call
    with the default arguments both are plain strings and the other twenty
    entries are declared parameters.  No step depends on
    [training_instance_type]: the same call with any other value for it
    returns a pipeline with the same steps, nested ones included. *)
Theorem C10_instance_types_in_parameter_list
    (pf : Platform) (a : Args) (p : Pipeline) :
  get_pipeline pf a = Some p ->
  nth_error (pl_parameters p) 0 = Some (processing_instance_type a)
  /\ nth_error (pl_parameters p) 2 = Some (training_instance_type a)
  /\ length (pl_parameters p) = 22%nat
  /\ (forall (r : string) (p0 : Pipeline),
        get_pipeline pf (default_args r) = Some p0 ->
        nth_error (pl_parameters p0) 0 = Some (VStr "ml.t3.large")
        /\ nth_error (pl_parameters p0) 2 = Some (VStr "ml.m5.xlarge")
        /\ map is_declared_parameter (pl_parameters p0)
           = false :: true :: false :: repeat true 19)
  /\ (forall t : Value,
        exists p',
          get_pipeline pf (with_training_instance_type a t) = Some p'
          /\ pl_steps p' = pl_steps p
          /\ all_steps p' = all_steps p).
Proof.
  intros H.
  assert (Hcall := H). pipeline_of H.
  split; [reflexivity|]. split; [reflexivity|]. split; [reflexivity|].
  split.
  - intros r p0 H0. pipeline_of H0. repeat split.
  - intros t.
    exists (get_pipeline_body pf (with_training_instance_type a t) bucket role0).
    split; [|split; reflexivity].
    unfold get_pipeline in *. cbn [with_training_instance_type region default_bucket role].
    rewrite Hbucket, Hrole. reflexivity.
Qed.

Lemma C10_instance_types_in_parameter_list_witness :
  get_pipeline example_platform example_args = Some example_pipeline
  /\ map is_declared_parameter (pl_parameters example_pipeline)
     = false :: true :: false :: repeat true 19
  /\ exists p',
       get_pipeline example_platform
         (with_training_instance_type example_args (VStr "ml.c5.2xlarge"))
       = Some p'
       /\ pl_steps p' = pl_steps example_pipeline.
Proof.
  split; [reflexivity|].
  destruct (C10_instance_types_in_parameter_list example_platform example_args
              example_pipeline eq_refl)
    as (_ & _ & _ & Hdef & Hind).
  split.
  - exact (proj2 (proj2 (Hdef "eu-west-1" example_pipeline eq_refl))).
  - destruct (Hind (VStr "ml.c5.2xlarge")) as (p' & Hp' & Hsteps & _).
    exists p'. split; assumption.
Defined.

(** * Further properties of the assembly *)

(** ** References between steps *)

(** X1.  When the processing instance type is a literal or a parameter,
    every reference in a returned pipeline is resolved by a step listed
    before the one that makes it: step properties, the search step's
    [depends_on], the models built from the search step, the condition's
    report file, and every addressed processing output is one the producing
    step declares.  The order of the list matters: without its first step
    the same list is not well formed. *)
Theorem X1_references_resolved_by_earlier_steps
    (pf : Platform) (a : Args) (p : Pipeline) :
  get_pipeline pf a = Some p ->
  plain (processing_instance_type a) = true ->
  steps_resolved [] (pl_steps p) = true
  /\ steps_resolved [] (tl (pl_steps p)) = false
  /\ steps_resolved [] (rev (pl_steps p)) = false.
Proof.
  intros H Hplain. pipeline_of H.
  unfold get_pipeline_body, pl_steps.
  unfold step_process, step_eval.
  destruct (processing_instance_type a); try discriminate Hplain;
    repeat split; reflexivity.
Qed.

Lemma X1_references_resolved_by_earlier_steps_witness :
  get_pipeline example_platform example_args = Some example_pipeline
  /\ plain (processing_instance_type example_args) = true
  /\ steps_resolved [] (pl_steps example_pipeline) = true.
Proof.
  split; [reflexivity|]. split; [reflexivity|].
  exact (proj1 (X1_references_resolved_by_earlier_steps
                  example_platform example_args example_pipeline
                  eq_refl eq_refl)).
Defined.

(** ** Parameters *)

(** X2.  When the processing instance type is a literal or a parameter,
    every parameter a step of a returned pipeline refers to, nested steps
    included, is itself an entry of the pipeline's parameter list. *)
Theorem X2_referenced_parameters_are_declared
    (pf : Platform) (a : Args) (p : Pipeline) (q : Param) :
  get_pipeline pf a = Some p ->
  plain (processing_instance_type a) = true ->
  In q (referenced_params p) -> In (VParam q) (pl_parameters p).
Proof.
  intros H Hplain Hin. pipeline_of H.
  unfold referenced_params in Hin.
  unfold get_pipeline_body, all_steps, pl_steps in Hin.
  unfold step_process, step_eval in Hin.
  unfold get_pipeline_body, pl_parameters.
  destruct (processing_instance_type a) as [s|z|q0|s path|n|on vs|obj attr];
    try discriminate Hplain; cbn in Hin |- *;
    intuition (subst; auto 40).
Qed.

Lemma X2_referenced_parameters_are_declared_witness :
  get_pipeline example_platform example_args = Some example_pipeline
  /\ plain (processing_instance_type example_args) = true
  /\ In model_approval_status (referenced_params example_pipeline)
  /\ In (VParam model_approval_status) (pl_parameters example_pipeline).
Proof.
  split; [reflexivity|]. split; [reflexivity|].
  assert (Href : In model_approval_status (referenced_params example_pipeline))
    by (cbn; auto 40).
  split; [exact Href|].
  exact (X2_referenced_parameters_are_declared example_platform example_args
           example_pipeline model_approval_status eq_refl eq_refl Href).
Defined.

(** X3.  When both instance types are literals, exactly one declared
    parameter of a returned pipeline is referred to by no step:
    [DataBiasSuppliedBaselineConstraints], which the data-bias check step is
    not given (the model-bias and model-explainability steps are given
    theirs).  Overriding it at submission changes nothing. *)
Theorem X3_one_declared_parameter_is_unused
    (pf : Platform) (a : Args) (p : Pipeline) (t1 t2 : string) :
  get_pipeline pf a = Some p ->
  processing_instance_type a = VStr t1 ->
  training_instance_type a = VStr t2 ->
  unused_parameter_names p = ["DataBiasSuppliedBaselineConstraints"]
  /\ (exists cfg job skip reg g,
        find_step "DataBiasCheckStep" (pl_steps p)
        = Some (ClarifyCheckStep "DataBiasCheckStep" cfg job skip reg None g))
  /\ length (declared_params p) = 20%nat.
Proof.
  intros H H1 H2. pipeline_of H.
  split; [|split].
  - unfold unused_parameter_names, referenced_params, declared_params.
    unfold get_pipeline_body, all_steps, pl_steps, pl_parameters.
    unfold step_process, step_eval. rewrite H1, H2. reflexivity.
  - do 5 eexists. reflexivity.
  - unfold declared_params, get_pipeline_body, pl_parameters.
    rewrite H1, H2. reflexivity.
Qed.

Lemma X3_one_declared_parameter_is_unused_witness :
  get_pipeline example_platform example_args = Some example_pipeline
  /\ unused_parameter_names example_pipeline
     = ["DataBiasSuppliedBaselineConstraints"].
Proof.
  split; [reflexivity|].
  exact (proj1 (X3_one_declared_parameter_is_unused example_platform
                  example_args example_pipeline "ml.t3.large" "ml.m5.xlarge"
                  eq_refl eq_refl eq_refl)).
Defined.

(** X4.  When both instance types are literals, the declared parameters of
    a returned pipeline have pairwise distinct names. *)
Theorem X4_parameter_names_distinct
    (pf : Platform) (a : Args) (p : Pipeline) (t1 t2 : string) :
  get_pipeline pf a = Some p ->
  processing_instance_type a = VStr t1 ->
  training_instance_type a = VStr t2 ->
  NoDup (map parameter_name (declared_params p)).
Proof.
  intros H H1 H2. pipeline_of H.
  unfold declared_params, get_pipeline_body, pl_parameters.
  rewrite H1, H2. cbn.
  repeat constructor; cbn; intuition discriminate.
Qed.

Lemma X4_parameter_names_distinct_witness :
  get_pipeline example_platform example_args = Some example_pipeline
  /\ NoDup (map parameter_name (declared_params example_pipeline)).
Proof.
  split; [reflexivity|].
  exact (X4_parameter_names_distinct example_platform example_args
           example_pipeline "ml.t3.large" "ml.m5.xlarge"
           eq_refl eq_refl eq_refl).
Defined.

(** X5.  In a returned pipeline the five check steps share no parameter:
    the names of the parameters they refer to, taken over all five, are
    pairwise distinct, and each check step has a skip flag and a
    register-baseline flag of its own, both boolean parameters. *)
Theorem X5_check_steps_share_no_parameter
    (pf : Platform) (a : Args) (p : Pipeline) :
  get_pipeline pf a = Some p ->
  map step_name (filter is_check (pl_steps p)) = check_steps
  /\ NoDup (flat_map step_param_names (filter is_check (pl_steps p)))
  /\ Forall (fun s =>
               exists n1 d1 n2 d2 rest,
                 flat_map value_params (step_values s)
                 = ParameterBoolean n1 d1 :: ParameterBoolean n2 d2 :: rest
                 /\ Forall (fun q => exists n d, q = ParameterString n d) rest)
       (filter is_check (pl_steps p)).
Proof.
  intros H. pipeline_of H.
  split; [reflexivity|]. split.
  - cbn. repeat constructor; cbn; intuition discriminate.
  - cbn. repeat (apply Forall_cons || apply Forall_nil);
      do 5 eexists; (split; [reflexivity|]);
      repeat (apply Forall_cons || apply Forall_nil); do 2 eexists; reflexivity.
Qed.

Lemma X5_check_steps_share_no_parameter_witness :
  get_pipeline example_platform example_args = Some example_pipeline
  /\ NoDup (flat_map step_param_names
              (filter is_check (pl_steps example_pipeline))).
Proof.
  split; [reflexivity|].
  exact (proj1 (proj2 (X5_check_steps_share_no_parameter example_platform
                         example_args example_pipeline eq_refl))).
Defined.

(** X8.  The five check steps and the registration of a returned pipeline
    all name the [model_package_group_name] argument, and no other step
    names a model package group. *)
Theorem X8_one_model_package_group
    (pf : Platform) (a : Args) (p : Pipeline) :
  get_pipeline pf a = Some p ->
  map (fun s => (step_name s, step_model_package_groups s))
      (filter (fun s => negb (match step_model_package_groups s with
                              | [] => true | _ => false end))
              (all_steps p))
  = map (fun n => (n, [model_package_group_name a]))
        (check_steps ++ ["RegisterHMDAModel"])%list.
Proof.
  intros H. pipeline_of H. reflexivity.
Qed.

Lemma X8_one_model_package_group_witness :
  get_pipeline example_platform example_args = Some example_pipeline
  /\ map (fun s => (step_name s, step_model_package_groups s))
       (filter (fun s => negb (match step_model_package_groups s with
                               | [] => true | _ => false end))
               (all_steps example_pipeline))
     = map (fun n => (n, ["HMDAPackageGroup"]))
           (check_steps ++ ["RegisterHMDAModel"])%list.
Proof.
  split; [reflexivity|].
  exact (X8_one_model_package_group example_platform example_args
           example_pipeline eq_refl).
Defined.

(** ** Where the checks write *)

Lemma location_inj (b pre id n1 n2 : string) :
  "s3://" ++ b ++ "/" ++ pre ++ "/" ++ id ++ "/" ++ n1
  = "s3://" ++ b ++ "/" ++ pre ++ "/" ++ id ++ "/" ++ n2 ->
  n1 = n2.
Proof.
  intros H. apply (append_inv_head "s3://") in H.
  apply append_inv_head in H. apply (append_inv_head "/") in H.
  apply append_inv_head in H. apply (append_inv_head "/") in H.
  apply append_inv_head in H. apply (append_inv_head "/") in H.
  exact H.
Qed.

Lemma NoDup_map_injective {A B : Type} (f : A -> B) (l : list A) :
  (forall x y, f x = f y -> x = y) -> NoDup l -> NoDup (map f l).
Proof.
  intros Hinj Hl. induction Hl as [|x l Hnotin Hl IH]; cbn; constructor.
  - intros Hin. apply in_map_iff in Hin. destruct Hin as (y & Hy & Hin).
    apply Hinj in Hy. now subst.
  - exact IH.
Qed.

(** X6.  In a returned pipeline on bucket [b], each of the five check
    steps writes its results, in the execution [execution_id], to
    [s3://b/<base_job_prefix>/<execution_id>/<step name in lower case>]: the
    [Join] on ["/"] that starts with ["s3:/"] yields an [s3://] URI, the
    location is separate for every execution, and no two check steps write
    to the same one.  The analysis configuration of a Clarify check goes to
    [s3://b/<base_job_prefix>/<step name in lower case>/analysis_cfg], the
    same for every execution. *)
Theorem X6_check_output_locations
    (pf : Platform) (a : Args) (p : Pipeline) (b execution_id : string) :
  get_pipeline pf a = Some p ->
  psess_default_bucket (pl_sagemaker_session p) = Some b ->
  Forall (fun s =>
            exists o,
              check_output_uri s = Some o
              /\ render execution_id o
                 = Some ("s3://" ++ b ++ "/" ++ base_job_prefix a ++ "/"
                           ++ execution_id ++ "/" ++ lower (step_name s)))
         (filter is_check (pl_steps p))
  /\ length (rendered_check_outputs execution_id (pl_steps p)) = 5%nat
  /\ NoDup (rendered_check_outputs execution_id (pl_steps p))
  /\ Forall (fun s =>
               forall path,
                 check_analysis_config_path s = Some path ->
                 path = "s3://" ++ b ++ "/" ++ base_job_prefix a ++ "/"
                          ++ lower (step_name s) ++ "/analysis_cfg")
            (pl_steps p).
Proof.
  intros H Hb. pipeline_of H. cbn in Hb. injection Hb as <-.
  split; [|split; [|split]].
  - cbn. repeat (apply Forall_cons || apply Forall_nil);
      eexists; (split; [reflexivity|]); reflexivity.
  - reflexivity.
  - change (rendered_check_outputs execution_id
              (pl_steps (get_pipeline_body pf a bucket role0)))
      with (map (fun n => "s3://" ++ bucket ++ "/" ++ base_job_prefix a ++ "/"
                            ++ execution_id ++ "/" ++ n)
                (map lower check_steps)).
    apply NoDup_map_injective.
    + intros n1 n2. apply location_inj.
    + cbn. repeat constructor; cbn; intuition discriminate.
  - cbn. repeat (apply Forall_cons || apply Forall_nil);
      intros path Hp; try discriminate Hp; injection Hp as <-; reflexivity.
Qed.

Lemma X6_check_output_locations_witness :
  get_pipeline example_platform example_args = Some example_pipeline
  /\ psess_default_bucket (pl_sagemaker_session example_pipeline)
     = Some example_bucket
  /\ NoDup (rendered_check_outputs "exec-1" (pl_steps example_pipeline)).
Proof.
  split; [reflexivity|]. split; [reflexivity|].
  exact (proj1 (proj2 (proj2
           (X6_check_output_locations example_platform example_args
              example_pipeline example_bucket "exec-1" eq_refl eq_refl)))).
Defined.

(** ** What [get_pipeline] does not look at *)

(** X7.  The pipeline [get_pipeline] returns depends neither on its
    [sagemaker_project_name] argument nor on what the project lookup and
    the tag listing answer, and on the environment's execution role only
    when no role is given: on two platforms that agree on [BASE_DIR], on
    the creation of the client for the region, on the bucket of the session
    and, when the role is [None], on the execution role of the session, two
    calls that differ in the project name at most and that both return a
    pipeline return the same one. *)
Theorem X7_pipeline_ignores_the_tag_service
    (pf pf' : Platform) (a : Args) (n : option string) (p p' : Pipeline) :
  BASE_DIR pf = BASE_DIR pf' ->
  boto_sagemaker_client pf (region a) = boto_sagemaker_client pf' (region a) ->
  session_default_bucket pf (get_session (region a) (default_bucket a))
  = session_default_bucket pf' (get_session (region a) (default_bucket a)) ->
  (role a = None ->
   get_execution_role pf (get_session (region a) (default_bucket a))
   = get_execution_role pf' (get_session (region a) (default_bucket a))) ->
  get_pipeline pf a = Some p ->
  get_pipeline pf' (with_sagemaker_project_name a n) = Some p' ->
  p = p'.
Proof.
  intros Hdir _ Hbucket Hrole H H'.
  assert (Hbody : forall b r,
             get_pipeline_body pf a b r
             = get_pipeline_body pf' (with_sagemaker_project_name a n) b r).
  { intros b r.
    unfold get_pipeline_body, step_cond, step_register, cond_lte,
      drift_check_baselines, model_metrics, model_explainability_check_step,
      model_explainability_check_config, model_bias_check_step,
      model_bias_check_config, model_config, model_quality_check_step,
      step_eval, step_transform, transform_inputs, transformer,
      step_create_model, best_auto_ml_model, step_automl,
      data_bias_check_step, data_bias_check_config, data_quality_check_step,
      step_process, check_job_config, pipeline_session_of.
    cbn [with_sagemaker_project_name region role default_bucket
         model_package_group_name pipeline_name base_job_prefix
         processing_instance_type training_instance_type].
    rewrite Hdir. reflexivity. }
  unfold get_pipeline in H, H'.
  cbn [with_sagemaker_project_name region role default_bucket] in H'.
  rewrite <- Hbucket in H'.
  destruct (session_default_bucket pf _) as [b|]; [|discriminate H].
  destruct (role a) as [r|].
  - injection H as <-. injection H' as <-. apply Hbody.
  - rewrite <- (Hrole eq_refl) in H'.
    destruct (get_execution_role pf _) as [r|]; [|discriminate H].
    injection H as <-. injection H' as <-. apply Hbody.
Qed.

Lemma X7_pipeline_ignores_the_tag_service_witness :
  get_pipeline example_platform example_args_with_role
  = Some (get_pipeline_body example_platform example_args_with_role
            example_bucket example_role)
  /\ get_pipeline example_platform_offline
       (with_sagemaker_project_name example_args_with_role (Some "hmda"))
     = Some (get_pipeline_body example_platform_offline
               (with_sagemaker_project_name example_args_with_role (Some "hmda"))
               example_bucket example_role)
  /\ get_pipeline_body example_platform example_args_with_role
       example_bucket example_role
     = get_pipeline_body example_platform_offline
         (with_sagemaker_project_name example_args_with_role (Some "hmda"))
         example_bucket example_role.
Proof.
  split; [reflexivity|]. split; [reflexivity|].
  apply (X7_pipeline_ignores_the_tag_service example_platform
           example_platform_offline example_args_with_role (Some "hmda")).
  - reflexivity.
  - reflexivity.
  - reflexivity.
  - intros H. discriminate H.
  - reflexivity.
  - reflexivity.
Defined.

(** X10.  The [processing_instance_type] argument reaches exactly the two
    processing steps, preprocessing and evaluation: when the same call with
    another value [t] also returns a pipeline, its two processing steps run
    on [t], [t] is the first entry of its parameter list, and its other
    steps, nested ones included, are those of the first pipeline. *)
Theorem X10_processing_instance_type_reach
    (pf : Platform) (a : Args) (p p' : Pipeline) (t : Value) :
  get_pipeline pf a = Some p ->
  get_pipeline pf (with_processing_instance_type a t) = Some p' ->
  map step_name (filter is_processing (all_steps p'))
  = ["PreprocessHMDAData"; "EvaluateHMDAModel"]
  /\ flat_map step_instance_types (all_steps p') = [t; t]
  /\ nth_error (pl_parameters p') 0 = Some t
  /\ filter (fun s => negb (is_processing s)) (all_steps p')
     = filter (fun s => negb (is_processing s)) (all_steps p).
Proof.
  intros H H'. pipeline_of H. pipeline_of H'.
  cbn [with_processing_instance_type region default_bucket role]
    in Hbucket0, Hrole0.
  rewrite Hbucket in Hbucket0. injection Hbucket0 as <-.
  rewrite Hrole in Hrole0. injection Hrole0 as <-.
  repeat split.
Qed.

Lemma X10_processing_instance_type_reach_witness :
  get_pipeline example_platform example_args = Some example_pipeline
  /\ exists p',
       get_pipeline example_platform
         (with_processing_instance_type example_args (VStr "ml.m5.large"))
       = Some p'
       /\ flat_map step_instance_types (all_steps p')
          = [VStr "ml.m5.large"; VStr "ml.m5.large"].
Proof.
  split; [reflexivity|].
  eexists. split; [reflexivity|].
  exact (proj1 (proj2
           (X10_processing_instance_type_reach example_platform example_args
              example_pipeline _ (VStr "ml.m5.large") eq_refl eq_refl))).
Defined.

(** ** The Clarify checks *)

(** X9.  In a returned pipeline the three Clarify checks (data bias, model
    bias, model explainability) read the same dataset, the preprocess
    step's [train_no_header] output, under the same 27 pairwise distinct
    headers, whose first entry is the label; where a bias configuration is
    given, its facets are distinct headers other than the label; and the
    model-bias and model-explainability checks use one and the same model
    configuration, naming the created model. *)
Theorem X9_clarify_checks_are_consistent
    (pf : Platform) (a : Args) (p : Pipeline) :
  get_pipeline pf a = Some p ->
  exists headers input model,
    length headers = 27%nat
    /\ NoDup headers
    /\ input = VProp "PreprocessHMDAData"
                 ["ProcessingOutputConfig"; "Outputs"; "train_no_header";
                  "S3Output"; "S3Uri"]
    /\ mc_model_name model = VProp "HMDACreateModel" ["ModelName"]
    /\ map step_name (filter (fun s => match step_clarify_config s with
                                       | Some _ => true | None => false end)
                        (pl_steps p))
       = ["DataBiasCheckStep"; "ModelBiasCheckStep";
          "ModelExplainabilityCheckStep"]
    /\ Forall (fun s =>
                 forall cfg, step_clarify_config s = Some cfg ->
                   dc_headers (clarify_data_config cfg) = headers
                   /\ hd_error headers = Some (dc_label (clarify_data_config cfg))
                   /\ dc_s3_data_input_path (clarify_data_config cfg) = input
                   /\ (forall b, clarify_bias_config cfg = Some b ->
                         incl (bc_facet_name b) headers
                         /\ NoDup (bc_facet_name b)
                         /\ ~ In (dc_label (clarify_data_config cfg))
                              (bc_facet_name b))
                   /\ (forall m, clarify_model_config cfg = Some m -> m = model))
         (pl_steps p).
Proof.
  intros H. pipeline_of H.
  do 3 eexists.
  split; [|split; [|split; [|split; [|split]]]].
  6: { cbn. repeat (apply Forall_cons || apply Forall_nil);
       intros cfg Hcfg; try discriminate Hcfg; injection Hcfg as <-;
       (split; [reflexivity|]); (split; [reflexivity|]);
       (split; [reflexivity|]); split;
       try (intros b Hb; try discriminate Hb; injection Hb as <-;
            split; [intros x Hx; cbn in Hx |- *; intuition auto 30|];
            split; [repeat constructor; cbn; intuition discriminate|];
            cbn; intuition discriminate);
       try (intros m Hm; try discriminate Hm; injection Hm as <-; reflexivity). }
  - reflexivity.
  - repeat constructor; cbn; intuition discriminate.
  - reflexivity.
  - reflexivity.
  - reflexivity.
Qed.

Lemma X9_clarify_checks_are_consistent_witness :
  get_pipeline example_platform example_args = Some example_pipeline
  /\ exists headers,
       NoDup headers
       /\ Forall (fun s =>
                    forall cfg, step_clarify_config s = Some cfg ->
                      dc_headers (clarify_data_config cfg) = headers)
            (pl_steps example_pipeline).
Proof.
  split; [reflexivity|].
  destruct (X9_clarify_checks_are_consistent example_platform example_args
              example_pipeline eq_refl)
    as (headers & input & model & _ & Hnodup & _ & _ & _ & Hall).
  exists headers. split; [exact Hnodup|].
  eapply Forall_impl; [|exact Hall].
  intros s Hs cfg Hcfg. exact (proj1 (Hs cfg Hcfg)).
Defined.

(** ** Repeated tag lookups *)

(** One call from any state of the list and of the output. *)
Lemma custom_tags_step (pf : Platform) (region : string)
    (name : option string) (w : World) :
  get_pipeline_custom_tags pf region name w
  = match fetch_project_tags pf region name with
    | inr project_tags =>
        (inr (new_tags_obj w ++ project_tags)%list,
         mkWorld (new_tags_obj w ++ project_tags)%list (stdout w))
    | inl e =>
        (inr (new_tags_obj w),
         mkWorld (new_tags_obj w)
                 (stdout w ++ [("Error getting project tags: " ++ e)%string])%list)
    end.
Proof.
  destruct w as [cur out].
  unfold get_pipeline_custom_tags, fetch_project_tags.
  unfold bind, try_except, call, print.
  destruct (get_sagemaker_client pf region) as [e|sm_client]; [reflexivity|].
  destruct (describe_project pf sm_client name) as [e|response]; [reflexivity|].
  destruct (getitem response "ProjectArn") as [e|arn]; [reflexivity|].
  destruct (list_tags pf sm_client arn) as [e|[tags|]]; [reflexivity| |reflexivity].
  rewrite for_each_append. reflexivity.
Qed.

Lemma custom_tags_n_times_from (n : nat) (pf : Platform) (region : string)
    (name : option string) (w : World) :
  custom_tags_n_times n pf region name w
  = match fetch_project_tags pf region name with
    | inr project_tags =>
        (inr (new_tags_obj w ++ concat (repeat project_tags n))%list,
         mkWorld (new_tags_obj w ++ concat (repeat project_tags n))%list
                 (stdout w))
    | inl e =>
        (inr (new_tags_obj w),
         mkWorld (new_tags_obj w)
                 (stdout w
                  ++ repeat ("Error getting project tags: " ++ e)%string n)%list)
    end.
Proof.
  revert w. induction n as [|n IH]; intros [cur out].
  - cbn. destruct (fetch_project_tags pf region name); now rewrite app_nil_r.
  - cbn [custom_tags_n_times]. unfold bind at 1.
    rewrite custom_tags_step.
    destruct (fetch_project_tags pf region name) as [e|tags] eqn:Hfetch.
    + rewrite IH. cbn. now rewrite <- app_assoc.
    + rewrite IH. cbn. now rewrite <- app_assoc.
Qed.

(** X11.  Calls of [get_pipeline_custom_tags] on the same list accumulate:
    after [n] calls the list holds the supplied tags followed by [n] copies
    of the project's tags (nothing is de-duplicated) when the lookup
    succeeds, and the supplied tags alone, with one printed line per call,
    when it fails. *)
Theorem X11_repeated_tag_lookups_accumulate
    (n : nat) (pf : Platform) (new_tags : list Tag) (region : string)
    (sagemaker_project_name : option string) :
  custom_tags_n_times n pf region sagemaker_project_name (mkWorld new_tags [])
  = match fetch_project_tags pf region sagemaker_project_name with
    | inr project_tags =>
        (inr (new_tags ++ concat (repeat project_tags n))%list,
         mkWorld (new_tags ++ concat (repeat project_tags n))%list [])
    | inl e =>
        (inr new_tags,
         mkWorld new_tags (repeat ("Error getting project tags: " ++ e) n))
    end.
Proof. apply custom_tags_n_times_from. Qed.

(** ** Who reads which output *)

(** X12.  When the processing instance type is a literal or a parameter,
    the processing steps of a returned pipeline declare four outputs and
    each is read: [train] by the model search only, [train_no_header] by
    the data-quality check and the three Clarify checks, [test] by the
    batch transform only, and the evaluation step's [evaluation] by the
    condition step only. *)
Theorem X12_every_output_has_its_readers
    (pf : Platform) (a : Args) (p : Pipeline) :
  get_pipeline pf a = Some p ->
  plain (processing_instance_type a) = true ->
  declared_outputs (all_steps p)
  = [ ("PreprocessHMDAData", "train");
      ("PreprocessHMDAData", "train_no_header");
      ("PreprocessHMDAData", "test");
      ("EvaluateHMDAModel", "evaluation") ]
  /\ map (fun o => output_consumers (all_steps p) (fst o) (snd o))
         (declared_outputs (all_steps p))
     = [ ["AutoMLStep"];
         ["DataQualityCheckStep"; "DataBiasCheckStep"; "ModelBiasCheckStep";
          "ModelExplainabilityCheckStep"];
         ["HMDATransform"];
         ["CheckF1HMDAEvaluation"] ].
Proof.
  intros H Hplain. pipeline_of H.
  unfold get_pipeline_body, all_steps, pl_steps.
  unfold step_process, step_eval.
  destruct (processing_instance_type a); try discriminate Hplain;
    split; reflexivity.
Qed.

Lemma X12_every_output_has_its_readers_witness :
  get_pipeline example_platform example_args = Some example_pipeline
  /\ plain (processing_instance_type example_args) = true
  /\ declared_outputs (all_steps example_pipeline)
     = [ ("PreprocessHMDAData", "train");
         ("PreprocessHMDAData", "train_no_header");
         ("PreprocessHMDAData", "test");
         ("EvaluateHMDAModel", "evaluation") ].
Proof.
  split; [reflexivity|]. split; [reflexivity|].
  exact (proj1 (X12_every_output_has_its_readers example_platform
                  example_args example_pipeline eq_refl eq_refl)).
Defined.

(** ** The columns the model-quality check reads *)

Lemma last_app_cons {A : Type} (l : list A) (x : A) (l' : list A) (d d' : A) :
  last (l ++ x :: l')%list d = last (x :: l') d'.
Proof.
  induction l as [|y l IH].
  - cbn [app]. revert x. induction l' as [|z l' IH']; intros x; [reflexivity|].
    change (last (x :: z :: l') d) with (last (z :: l') d).
    change (last (x :: z :: l') d') with (last (z :: l') d').
    apply IH'.
  - change ((y :: l) ++ x :: l')%list with (y :: (l ++ x :: l'))%list.
    destruct (l ++ x :: l')%list eqn:E.
    + destruct l; discriminate E.
    + rewrite <- IH. reflexivity.
Qed.

(** X13.  In a returned pipeline the model-quality check reads the batch
    transform's output and takes column [_c0] as the ground truth and
    column [_c1] as the inference.  That is what the transform writes: for
    every record with at least one column and every model that predicts at
    least one column, the written record has exactly two columns, the
    record's first input column (the one the model was not shown) at
    position 0 and the model's last predicted column at position 1. *)
Theorem X13_model_quality_columns_match_transform_output
    (pf : Platform) (a : Args) (p : Pipeline) :
  get_pipeline pf a = Some p ->
  exists targs quality,
    find_step "HMDATransform" (pl_steps p)
    = Some (TransformStep "HMDATransform" targs)
    /\ find_step "ModelQualityCheckStep" (pl_steps p) = Some quality
    /\ model_quality_columns quality
       = Some (VProp "HMDATransform" ["TransformOutput"; "S3OutputPath"],
               Some 0%nat, Some 1%nat)
    /\ forall (A : Type) (model : list A -> list A) (c0 : A) (rest : list A)
              (y : A) (ys : list A),
         model rest = y :: ys ->
         exists out,
           transform_record targs model (c0 :: rest) = Some out
           /\ length out = 2%nat
           /\ nth_error out 0 = Some c0
           /\ nth_error out 1 = Some (last (y :: ys) y).
Proof.
  intros H. pipeline_of H.
  do 2 eexists. split; [reflexivity|]. split; [reflexivity|].
  split; [reflexivity|].
  intros A model c0 rest y ys Hmodel.
  unfold transform_record.
  change (parse_filter (ta_input_filter _)) with (Some (FSlice (Some 1%Z) None)).
  change (parse_filter (ta_output_filter _)) with (Some (FIndices [0%Z; (-1)%Z])).
  change (String.eqb (ta_join_source _) "Input") with true.
  cbv iota beta zeta.
  rewrite slice_from_1, Hmodel.
  change ((c0 :: rest) ++ y :: ys)%list with (c0 :: (rest ++ y :: ys))%list.
  rewrite first_and_last.
  eexists. split; [reflexivity|]. split; [reflexivity|]. split; [reflexivity|].
  cbn [nth_error]. f_equal.
  change (last (c0 :: rest ++ y :: ys) c0)
    with (last ((c0 :: rest) ++ y :: ys)%list c0).
  apply last_app_cons.
Qed.

Lemma X13_model_quality_columns_match_transform_output_witness :
  get_pipeline example_platform example_args = Some example_pipeline
  /\ exists targs out,
       find_step "HMDATransform" (pl_steps example_pipeline)
       = Some (TransformStep "HMDATransform" targs)
       /\ transform_record targs (fun _ => ["1"]) ["0"; "a"; "b"] = Some out
       /\ nth_error out 0 = Some "0"
       /\ nth_error out 1 = Some "1".
Proof.
  split; [reflexivity|].
  destruct (X13_model_quality_columns_match_transform_output
              example_platform example_args example_pipeline eq_refl)
    as (targs & quality & Hfind & _ & _ & Hrec).
  destruct (Hrec string (fun _ => ["1"]) "0" ["a"; "b"] "1" [] eq_refl)
    as (out & Hout & _ & H0 & H1).
  exists targs, out. auto.
Defined.

(** ** The dependency graph *)

(** X14.  When the processing instance type is a literal or a parameter,
    the steps of a returned pipeline wait for one another as follows: the
    two data checks, the search and the transform for the preprocessing;
    the search also for the two data checks; model creation for the search;
    the transform also for the created model; the model-quality check and
    the evaluation for the transform; the model-bias and explainability
    checks for the preprocessing and the created model; the condition for
    the evaluation only; and the registration for the search and all five
    check steps. *)
Theorem X14_dependency_graph
    (pf : Platform) (a : Args) (p : Pipeline) :
  get_pipeline pf a = Some p ->
  plain (processing_instance_type a) = true ->
  map (fun s => (step_name s, step_dependencies s)) (all_steps p)
  = [ ("PreprocessHMDAData", []);
      ("DataQualityCheckStep", ["PreprocessHMDAData"]);
      ("DataBiasCheckStep", ["PreprocessHMDAData"]);
      ("AutoMLStep",
       ["DataQualityCheckStep"; "DataBiasCheckStep"; "PreprocessHMDAData"]);
      ("HMDACreateModel", ["AutoMLStep"]);
      ("HMDATransform", ["HMDACreateModel"; "PreprocessHMDAData"]);
      ("ModelQualityCheckStep", ["HMDATransform"]);
      ("ModelBiasCheckStep", ["PreprocessHMDAData"; "HMDACreateModel"]);
      ("ModelExplainabilityCheckStep",
       ["PreprocessHMDAData"; "HMDACreateModel"]);
      ("EvaluateHMDAModel", ["HMDATransform"]);
      ("CheckF1HMDAEvaluation", ["EvaluateHMDAModel"]);
      ("RegisterHMDAModel",
       ["DataQualityCheckStep"; "DataBiasCheckStep"; "ModelQualityCheckStep";
        "ModelBiasCheckStep"; "ModelExplainabilityCheckStep"; "AutoMLStep"]) ].
Proof.
  intros H Hplain. pipeline_of H.
  unfold get_pipeline_body, all_steps, pl_steps.
  unfold step_process, step_eval.
  destruct (processing_instance_type a); try discriminate Hplain; reflexivity.
Qed.

Lemma X14_dependency_graph_witness :
  get_pipeline example_platform example_args = Some example_pipeline
  /\ plain (processing_instance_type example_args) = true
  /\ nth_error (map (fun s => (step_name s, step_dependencies s))
                    (all_steps example_pipeline)) 10
     = Some ("CheckF1HMDAEvaluation", ["EvaluateHMDAModel"]).
Proof.
  split; [reflexivity|]. split; [reflexivity|].
  rewrite (X14_dependency_graph example_platform example_args
             example_pipeline eq_refl eq_refl).
  reflexivity.
Defined.
